(** * highspell-online-bot: the poll loop and the tracked message

    A shallow embedding of [OnlineBot] (bot.js): the count extraction
    ([fetchTotalMemberCount], [fetchWorldsMemberCount]), the renderer
    ([buildMessage]), message acquisition ([getOrSendMessage]) and the
    self-rescheduling [poll] cycle, together with the properties the
    design document states about them.

    JavaScript values are modelled as the code sees them: strings are
    sequences of UTF-16 code units, numbers are the integer-valued doubles
    that [parseInt] can produce (plus NaN and the infinities), objects are
    ordered own-property lists, and [undefined] is [None]. *)

From Stdlib Require Import ZArith NArith List Bool String Ascii Lia.
From Stdlib Require Import DecimalString.
Import ListNotations.

Set Warnings "-register-all".
Local Open Scope Z_scope.

(* ================================================================== *)
(** ** JavaScript strings *)

(** A string is its sequence of UTF-16 code units. *)
Definition jsstring := list N.

(** A literal of the source, written as a Rocq string (ASCII only). *)
Definition js (s : string) : jsstring :=
  List.map N_of_ascii (list_ascii_of_string s).

(** Strict equality [===] on strings. *)
Fixpoint jsstring_eqb (a b : jsstring) : bool :=
  match a, b with
  | [], [] => true
  | x :: a', y :: b' => (x =? y)%N && jsstring_eqb a' b'
  | _, _ => false
  end.

(** WhiteSpace and LineTerminator code points of ECMAScript, the ones
    [String.prototype.trim] and [parseInt] strip. *)
Definition isWhiteSpace (c : N) : bool :=
  ((9 <=? c) && (c <=? 13) ||          (* TAB LF VT FF CR *)
   (c =? 32) || (c =? 160) ||          (* SP NBSP *)
   (c =? 5760) ||                      (* U+1680 *)
   ((8192 <=? c) && (c <=? 8202)) ||   (* U+2000 .. U+200A *)
   (c =? 8232) || (c =? 8233) ||       (* U+2028 U+2029 *)
   (c =? 8239) || (c =? 8287) ||       (* U+202F U+205F *)
   (c =? 12288) || (c =? 65279))%N.    (* U+3000 U+FEFF *)

Fixpoint dropWhile {A} (p : A -> bool) (l : list A) : list A :=
  match l with
  | [] => []
  | x :: r => if p x then dropWhile p r else l
  end.

Fixpoint takeWhile {A} (p : A -> bool) (l : list A) : list A :=
  match l with
  | [] => []
  | x :: r => if p x then x :: takeWhile p r else []
  end.

Definition trimStart (s : jsstring) : jsstring := dropWhile isWhiteSpace s.
Definition trimEnd (s : jsstring) : jsstring :=
  rev (dropWhile isWhiteSpace (rev s)).

(** [String.prototype.trim] *)
Definition trim (s : jsstring) : jsstring := trimEnd (trimStart s).

(* ================================================================== *)
(** ** JavaScript numbers *)

(** The Number values that occur in the bot: NaN, the two infinities and
    the integer-valued doubles.  [+0] and [-0] are both [Fin 0]: the code
    only compares with [!==] and renders with template literals, and
    neither tells the two zeros apart. *)
Inductive number :=
| NaN
| Infinity (negative : bool)
| Fin (z : Z).

Definition Number_isNaN (n : number) : bool :=
  match n with NaN => true | _ => false end.

(** Strict equality [===] on Number values. *)
Definition number_eqb (a b : number) : bool :=
  match a, b with
  | Fin x, Fin y => x =? y
  | Infinity s, Infinity t => Bool.eqb s t
  | _, _ => false
  end.

(** The Number value for a mathematical integer: round to nearest, ties to
    even, on 53 bits of mantissa; magnitudes that round to [2^1024] or
    more become infinite. *)
Definition toNumber (z : Z) : number :=
  let a := Z.abs z in
  if a <? 2 ^ 53 then Fin z
  else
    let e := Z.log2 a - 52 in
    let q := a / 2 ^ e in
    let r := a mod 2 ^ e in
    let h := 2 ^ (e - 1) in
    let q' := if (h <? r) || ((r =? h) && Z.odd q) then q + 1 else q in
    let m := q' * 2 ^ e in
    if 2 ^ 1024 <=? m then Infinity (z <? 0) else Fin (Z.sgn z * m).

(** The value of a digit in radix 10 or 16, if it is one. *)
Definition digitValue (radix : Z) (c : N) : option Z :=
  let v :=
    if ((48 <=? c) && (c <=? 57))%N then Some (Z.of_N c - 48)
    else if ((97 <=? c) && (c <=? 102))%N then Some (Z.of_N c - 87)
    else if ((65 <=? c) && (c <=? 70))%N then Some (Z.of_N c - 55)
    else None in
  match v with
  | Some d => if d <? radix then Some d else None
  | None => None
  end.

Definition isDigit (radix : Z) (c : N) : bool :=
  match digitValue radix c with Some _ => true | None => false end.

(** The integer a digit string denotes, most significant digit first. *)
Definition mathInt (radix : Z) (ds : jsstring) : Z :=
  fold_left
    (fun acc c => acc * radix + match digitValue radix c with
                                | Some d => d
                                | None => 0
                                end) ds 0.

(** The sign step of [parseInt]: a leading [-] or [+] is read and removed. *)
Definition readSign (s0 : jsstring) : Z * jsstring :=
  match s0 with
  | c :: r => if (c =? 45)%N then (-1, r)
              else if (c =? 43)%N then (1, r) else (1, s0)
  | [] => (1, s0)
  end.

(** The prefix step of [parseInt] when no radix is given: [0x] or [0X]
    is removed and selects radix 16, otherwise the radix is 10. *)
Definition stripPrefix (s1 : jsstring) : Z * jsstring :=
  match s1 with
  | c0 :: c1 :: r =>
      if ((c0 =? 48) && ((c1 =? 120) || (c1 =? 88)))%N
      then (16, r) else (10, s1)
  | _ => (10, s1)
  end.

(** [parseInt(string)] with no radix argument (ECMAScript 19.2.5): leading
    white space is skipped, a sign is read, a [0x]/[0X] prefix selects
    radix 16, and the longest prefix of digits is converted; an empty
    prefix gives NaN. *)
Definition parseInt (s : jsstring) : number :=
  let s0 := trimStart s in
  let '(sign, s1) := readSign s0 in
  let '(radix, s2) := stripPrefix s1 in
  match takeWhile (isDigit radix) s2 with
  | [] => NaN
  | ds => toNumber (sign * mathInt radix ds)
  end.

(* ================================================================== *)
(** ** Values, objects and errors *)

(** JSON-shaped values: what an embed and a config template are made of. *)
Inductive jsval :=
| JUndefined
| JNull
| JBool (b : bool)
| JNum (n : number)
| JStr (s : jsstring)
| JArr (l : list jsval)
| JObj (o : list (jsstring * jsval)).

(** An object is the list of its own enumerable properties, in the order
    [for ... in] visits them; a property name occurs at most once. *)
Definition object := list (jsstring * jsval).

Fixpoint getOwn (o : object) (k : jsstring) : option jsval :=
  match o with
  | [] => None
  | (k', v) :: r => if jsstring_eqb k' k then Some v else getOwn r k
  end.

Definition hasOwn (o : object) (k : jsstring) : bool :=
  match getOwn o k with Some _ => true | None => false end.

Fixpoint keysDistinct (o : object) : bool :=
  match o with
  | [] => true
  | (k, _) :: r => negb (hasOwn r k) && keysDistinct r
  end.

Fixpoint assign (o : object) (k : jsstring) (v : jsval) : object :=
  match o with
  | [] => [(k, v)]
  | (k', v') :: r =>
      if jsstring_eqb k' k then (k', v) :: r else (k', v') :: assign r k v
  end.

(** [o[k] = v] on an ordinary object: an existing property keeps its place,
    a new one is added last.  The name [__proto__] reaches the setter of
    [Object.prototype] instead and leaves the own properties alone. *)
Definition setProp (o : object) (k : jsstring) (v : jsval) : object :=
  if jsstring_eqb k (js "__proto__") then o else assign o k v.

(** [Array.prototype.concat] with one argument: an array argument is
    spread, anything else is appended as one element. *)
Definition concat (l : list jsval) (v : jsval) : list jsval :=
  match v with
  | JArr l' => l ++ l'
  | _ => l ++ [v]
  end.

(** A thrown [Error]; the code only ever reads its [message]. *)
Record Error := mkError { message : jsstring }.

(** The TypeErrors the runtime can raise in this code. *)
Inductive typeError :=
| ReadOfNull (property : string)
| ReadOfUndefined (property : string)
| NotAFunction (callee : string).

(** What the code takes from its host: the Number-to-string conversion of
    template literals, the wording of the runtime's TypeErrors, and
    [util.formatPollRate], whose module is not part of the sources. *)
Class Host := {
  Number_toString : number -> jsstring;
  TypeError_message : typeError -> jsstring;
  formatPollRate : Z -> jsstring
}.

Definition TypeError `{Host} (t : typeError) : Error :=
  mkError (TypeError_message t).

(* ================================================================== *)
(** ** Configuration, messages and the bot *)

Module Config.
(** [config.json] after [validateConfig]. *)
Record t := mk {
  token : jsstring;
  channelId : jsstring;
  url : jsstring;
  totalCount : jsstring;             (* selector *)
  worldsCount : option jsstring;     (* selector, or absent *)
  pollRate : Z;                      (* seconds *)
  embed : option object              (* template, or absent *)
}.
End Config.

Module Message.
(** A message of the channel, as far as the bot looks at it. *)
Record t := mk {
  id : jsstring;
  author_id : jsstring;
  embeds : list jsval;
  createdTimestamp : Z
}.
End Message.

Module Payload.
(** The object handed to [channel.send] and [message.edit]. *)
Record t := mk {
  embeds : list object;
  content : jsstring
}.
End Payload.

Record Channel := mkChannel {
  isTextBased : bool;
  history : list Message.t             (* most recent first *)
}.

(** The fields of an [OnlineBot] instance ([client] is the environment). *)
Record OnlineBot := mkBot {
  config : Config.t;
  messageRef : option Message.t;
  cachedCount : option number;
  worldsCount : option (list number);  (* [None] is [undefined] *)
  running : bool
}.

Definition constructor (cfg : Config.t) : OnlineBot :=
  {| config := cfg;
     messageRef := None;
     cachedCount := None;
     worldsCount := Some [];
     running := false |}.

(** A cheerio selection: its [text()] and the nodes it iterates over.  A
    node has a first child or none ([null]); a child that is a text node
    has [data], an element child has none ([undefined]). *)
Record Child := mkChild { data : option jsstring }.
Record Node := mkNode { firstChild : option Child }.
Record Element := mkElement { text : jsstring; nodes : list Node }.

(** What the outside world answers during one poll cycle. *)
Record Cycle := mkCycle {
  totalPage : Error + Element;    (* util.fetchData(config.totalCount) *)
  worldsPage : Error + Element;   (* util.fetchData(config.worldsCount) *)
  editReply : option Error;       (* messageRef.edit: rejected, or done *)
  now : jsstring                  (* new Date().toISOString() *)
}.

(** What the platform answers during message acquisition. *)
Record Acquire := mkAcquire {
  user_id : jsstring;                  (* client.user.id *)
  user_tag : jsstring;                 (* readyClient.user.tag *)
  channelReply : Error + option Channel;   (* client.channels.fetch *)
  listReply : option Error;            (* channel.messages.fetch rejected? *)
  sendReply : Error + Message.t;       (* channel.send *)
  today : jsstring                     (* new Date().toISOString() *)
}.

(** Everything the bot does to the outside, in order. *)
Inductive event :=
| Log (line : jsstring)
| LogError (line : jsstring)
| Send (p : Payload.t)
| Edit (m : Message.t) (p : Payload.t)
| SetTimeout (delay : Z).

(* ================================================================== *)
(** ** The monad of an async method: state, trace and exceptions *)

Definition M (A : Type) : Type :=
  OnlineBot -> (Error + A) * OnlineBot * list event.

Definition ret {A} (a : A) : M A := fun s => (inr a, s, []).
Definition throw {A} (e : Error) : M A := fun s => (inl e, s, []).

Definition bind {A B} (m : M A) (k : A -> M B) : M B :=
  fun s =>
    match m s with
    | (inl e, s1, t1) => (inl e, s1, t1)
    | (inr a, s1, t1) =>
        let '(r, s2, t2) := k a s1 in (r, s2, t1 ++ t2)
    end.

(** [try { m } catch (err) { h err }] *)
Definition tryCatch {A} (m : M A) (h : Error -> M A) : M A :=
  fun s =>
    match m s with
    | (inl e, s1, t1) =>
        let '(r, s2, t2) := h e s1 in (r, s2, t1 ++ t2)
    | (inr a, s1, t1) => (inr a, s1, t1)
    end.

Definition this : M OnlineBot := fun s => (inr s, s, []).
Definition update (f : OnlineBot -> OnlineBot) : M unit :=
  fun s => (inr tt, f s, []).
Definition emit (e : event) : M unit := fun s => (inr tt, s, [e]).

(** [await p] for a promise that the environment settles. *)
Definition await {A} (p : Error + A) : M A :=
  match p with
  | inl e => throw e
  | inr a => ret a
  end.

Notation "x <- m ;; k" := (bind m (fun x => k))
  (at level 61, m at next level, right associativity).
Notation "m ;; k" := (bind m (fun _ => k))
  (at level 61, right associativity).

Arguments js : simpl never.
Arguments parseInt : simpl never.
Arguments trim : simpl never.

(** Modelled from the spec: util.js is not among the sources.  [util.log]
    and [util.error] are the logging collaborator: each call reports one
    line and does nothing else. *)
Definition log (line : jsstring) : M unit := emit (Log line).
Definition error (line : jsstring) : M unit := emit (LogError line).

Definition set_worldsCount (w : option (list number)) (s : OnlineBot) :=
  {| config := config s; messageRef := messageRef s;
     cachedCount := cachedCount s; worldsCount := w;
     running := running s |}.
Definition set_cachedCount (c : option number) (s : OnlineBot) :=
  {| config := config s; messageRef := messageRef s;
     cachedCount := c; worldsCount := worldsCount s;
     running := running s |}.
Definition set_running (b : bool) (s : OnlineBot) :=
  {| config := config s; messageRef := messageRef s;
     cachedCount := cachedCount s; worldsCount := worldsCount s;
     running := b |}.
Definition set_messageRef (m : option Message.t) (s : OnlineBot) :=
  {| config := config s; messageRef := m;
     cachedCount := cachedCount s; worldsCount := worldsCount s;
     running := running s |}.

(* ================================================================== *)
(** ** The methods of [OnlineBot] *)

Section Methods.
Context `{Host}.

(** How a template literal renders a count that may be [undefined]. *)
Definition String_of_count (c : option number) : jsstring :=
  match c with
  | Some n => Number_toString n
  | None => js "undefined"
  end.

(** [Array.prototype.join] with the default separator, on numbers. *)
Fixpoint join (l : list number) : jsstring :=
  match l with
  | [] => []
  | [n] => Number_toString n
  | n :: r => Number_toString n ++ js "," ++ join r
  end.

(** How a template literal renders [this.worldsCount]. *)
Definition String_of_worlds (w : option (list number)) : jsstring :=
  match w with
  | Some l => join l
  | None => js "undefined"
  end.

(** [fetchTotalMemberCount]: [page] is what [util.fetchData] settles to. *)
Definition fetchTotalMemberCount (page : Error + Element)
  : M (option number) :=
  tryCatch
    (element <- await page ;;
     let siteCount := text element in
     let count := parseInt (trim siteCount) in
     if Number_isNaN count then
       throw (mkError
         (js "Could not parse member count from the site. Expected a number but got '"
            ++ trim siteCount ++ js "'"))
     else ret (Some count))
    (fun err =>
       error (js "Error fetching member count: " ++ message err) ;;
       ret None).

(** The [for ... of] loop of [fetchWorldsMemberCount]; [acc] is the local
    array [worldsCount] built so far. *)
Fixpoint worldsLoop (l : list Node) (acc : list number)
  : M (list number) :=
  match l with
  | [] => ret acc
  | i :: rest =>
      match firstChild i with
      | None => throw (TypeError (ReadOfNull "data"))
      | Some child =>
          match data child with
          | None => throw (TypeError (ReadOfUndefined "trim"))
          | Some siteCount =>
              let count := parseInt (trim siteCount) in
              if Number_isNaN count then
                throw (mkError
                  (js "Could not parse worlds member count from the site. Expected a number but got '"
                     ++ trim siteCount ++ js "'"))
              else worldsLoop rest (acc ++ [count])
          end
      end
  end.

Definition fetchWorldsMemberCount (page : Error + Element)
  : M (option (list number)) :=
  tryCatch
    (element <- await page ;;
     worldsCount <- worldsLoop (nodes element) [] ;;
     ret (Some worldsCount))
    (fun err =>
       error (js "Error fetching member count: " ++ message err) ;;
       ret None).

(** [Array.prototype.map] with the index. *)
Fixpoint mapi {A B} (f : A -> Z -> B) (i : Z) (l : list A) : list B :=
  match l with
  | [] => []
  | x :: r => f x i :: mapi f (i + 1) r
  end.

Definition worldField (c : number) (i : Z) : jsval :=
  JObj [ (js "name", JStr (js "World " ++ Number_toString (Fin (i + 1))));
         (js "value", JStr (js "**" ++ Number_toString c ++ js "**"));
         (js "inline", JBool true) ].

(** One step of the [for ... in] loop over the config embed. *)
Definition applyKey (embed : object) (kv : jsstring * jsval)
  : M object :=
  let '(key, value) := kv in
  if jsstring_eqb key (js "fields") then
    match getOwn embed key with
    | Some (JArr l) => ret (setProp embed key (JArr (concat l value)))
    | _ => throw (TypeError (NotAFunction "embed[key].concat"))
    end
  else ret (setProp embed key value).

Fixpoint applyKeys (embed : object) (l : list (jsstring * jsval))
  : M object :=
  match l with
  | [] => ret embed
  | kv :: rest => embed' <- applyKey embed kv ;; applyKeys embed' rest
  end.

(** The loop applying the config embed.  Each step calls
    [configEmbed.hasOwnProperty]: a template with a property of that
    name shadows the method with a value that is not callable. *)
Definition applyConfigEmbed (embed : object) (configEmbed : object)
  : M object :=
  match configEmbed with
  | [] => ret embed
  | _ :: _ =>
      if hasOwn configEmbed (js "hasOwnProperty")
      then throw (TypeError (NotAFunction "configEmbed.hasOwnProperty"))
      else applyKeys embed configEmbed
  end.

(** The text for the count: [cachedCount] is [undefined] until the first
    successful fetch. *)
Definition countText (bot : OnlineBot) : jsstring :=
  match cachedCount bot with
  | Some c => js "**" ++ Number_toString c ++ js "**"
  | None => js "*Updating...*"
  end.

(** The default embed settings of [buildMessage]. *)
Definition defaultEmbed (bot : OnlineBot) (timestamp : jsstring)
  (fields : list jsval) : object :=
  [ (js "color", JNum (Fin 39423));
    (js "title", JStr (js "Online Players"));
    (js "url", JStr (Config.url (config bot)));
    (js "description",
     JStr (js "Current member count: " ++ countText bot));
    (js "timestamp", JStr timestamp);
    (js "fields", JArr fields) ].

(** [buildMessage]; [timestamp] is [new Date().toISOString()]. *)
Definition buildMessage (timestamp : jsstring) : M Payload.t :=
  bot <- this ;;
  fields <-
    match worldsCount bot with
    | Some w => ret (mapi worldField 0 w)
    | None => throw (TypeError (ReadOfUndefined "map"))
    end ;;
  let embed := defaultEmbed bot timestamp fields in
  embed <-
    match Config.embed (config bot) with
    | Some configEmbed => applyConfigEmbed embed configEmbed
    | None => ret embed
    end ;;
  ret {| Payload.embeds := [embed]; Payload.content := js "" |}.

(** [this.messageRef.edit(payload)] *)
Definition edit (mkPayload : M Payload.t) (reply : option Error)
  : M unit :=
  bot <- this ;;
  match messageRef bot with
  | None => throw (TypeError (ReadOfUndefined "edit"))
  | Some m =>
      payload <- mkPayload ;;
      emit (Edit m payload) ;;
      match reply with
      | Some err => throw err
      | None => ret tt
      end
  end.

(** Truthiness of an optional string: absent and empty are falsy. *)
Definition truthy (o : option jsstring) : bool :=
  match o with
  | Some (_ :: _) => true
  | _ => false
  end.

(** The guard of [poll]:
    [newCount !== undefined && !Number.isNaN(newCount)
     && newCount !== this.cachedCount]. *)
Definition changed (newCount cached : option number) : bool :=
  match newCount with
  | None => false
  | Some n =>
      negb (Number_isNaN n)
      && negb (match cached with
               | Some c => number_eqb n c
               | None => false
               end)
  end.

(** The [try] block of [poll]. *)
Definition pollBody (c : Cycle) : M unit :=
  log (js "Polling site...") ;;
  newCount <- fetchTotalMemberCount (totalPage c) ;;
  log (js "Fetched member count: " ++ String_of_count newCount) ;;
  bot <- this ;;
  (if truthy (Config.worldsCount (config bot)) then
     w <- fetchWorldsMemberCount (worldsPage c) ;;
     update (set_worldsCount w) ;;
     log (js "Fetched worlds count: " ++ String_of_worlds w)
   else ret tt) ;;
  bot <- this ;;
  if changed newCount (cachedCount bot) then
    update (set_cachedCount newCount) ;;
    edit (buildMessage (now c)) (editReply c) ;;
    log (js "Updated message")
  else ret tt.

(** [poll]: one cycle, and the re-queue at its end. *)
Definition poll (c : Cycle) (bot : OnlineBot) : OnlineBot * list event :=
  let '(_, bot1, t1) :=
    tryCatch (pollBody c)
      (fun err =>
         error (js "Error during polling: " ++ message err) ;;
         update (set_running false)) bot in
  if running bot1
  then (bot1, t1 ++ [SetTimeout (Config.pollRate (config bot1) * 1000)])
  else (bot1, t1).

Definition isSetTimeout (e : event) : bool :=
  match e with SetTimeout _ => true | _ => false end.

(** The timer: the next cycle runs exactly when the one before armed
    [setTimeout]; [cycles] is what the world answers, cycle by cycle. *)
Fixpoint pollLoop (cycles : list Cycle) (bot : OnlineBot)
  : OnlineBot * list event :=
  match cycles with
  | [] => (bot, [])
  | c :: rest =>
      let '(bot1, t1) := poll c bot in
      if existsb isSetTimeout t1 then
        let '(bot2, t2) := pollLoop rest bot1 in (bot2, t1 ++ t2)
      else (bot1, t1)
  end.

(** [channel.messages.fetch({ limit })]: the platform answers with the
    [limit] most recent messages of the channel. *)
Definition messages_fetch (limit : nat) (channel : Channel)
  : list Message.t :=
  firstn limit (history channel).

(** [Collection.sort(compare)]: the entries are sorted with the stable
    [Array.prototype.sort]; an element goes before another exactly when
    [compare] is negative, and equal elements keep their order. *)
Fixpoint insert {A} (compare : A -> A -> Z) (x : A) (l : list A)
  : list A :=
  match l with
  | [] => [x]
  | y :: r =>
      if compare x y <=? 0 then x :: l else y :: insert compare x r
  end.

Definition sort {A} (compare : A -> A -> Z) (l : list A) : list A :=
  fold_right (insert compare) [] l.

(** The filter of [getOrSendMessage]: written by the bot itself, and
    with at least one embed. *)
Definition isBotMessage (self : jsstring) (msg : Message.t) : bool :=
  jsstring_eqb (Message.author_id msg) self
  && (0 <? Z.of_nat (List.length (Message.embeds msg))).

Definition newestFirst (a b : Message.t) : Z :=
  Message.createdTimestamp b - Message.createdTimestamp a.

(** [getOrSendMessage].  The thrown message reads [this.channelId], a
    field the class never sets, so it renders as [undefined]. *)
Definition getOrSendMessage (a : Acquire) : M Message.t :=
  channel <- await (channelReply a) ;;
  match channel with
  | None =>
      throw (mkError (js "Could not find channel with ID '"
        ++ js "undefined" ++ js "' or it is not a text channel."))
  | Some channel =>
      if negb (isTextBased channel) then
        throw (mkError (js "Could not find channel with ID '"
          ++ js "undefined" ++ js "' or it is not a text channel."))
      else
        messages <-
          match listReply a with
          | Some err => throw err
          | None => ret (messages_fetch 10 channel)
          end ;;
        let botMessages := filter (isBotMessage (user_id a)) messages in
        if 0 <? Z.of_nat (List.length botMessages) then
          let botMessages := sort newestFirst botMessages in
          match botMessages with
          | message :: _ =>
              log (js "Found existing message with ID '"
                     ++ Message.id message ++ js "'") ;;
              ret message
          | [] => throw (TypeError (ReadOfUndefined "id"))
          end
        else
          payload <- buildMessage (today a) ;;
          emit (Send payload) ;;
          message <- await (sendReply a) ;;
          log (js "Sent new message with ID '"
                 ++ Message.id message ++ js "'") ;;
          ret message
  end.

(** [run]: the flag is raised; registering [onReady] and logging in are
    the client's business. *)
Definition run (bot : OnlineBot) : OnlineBot := set_running true bot.

(** [onReady], followed by the polling it starts; [poll] is not awaited
    and never rejects. *)
Definition onReady (a : Acquire) (cycles : list Cycle) : M unit :=
  log (js "Bot is online, logged in as " ++ user_tag a) ;;
  bot <- this ;;
  let formattedPollRate := formatPollRate (Config.pollRate (config bot)) in
  log (js "Polling active member count from '" ++ Config.url (config bot)
         ++ js "' every " ++ formattedPollRate) ;;
  message <- getOrSendMessage a ;;
  update (set_messageRef (Some message)) ;;
  (fun bot => let '(bot', t) := pollLoop cycles bot in (inr tt, bot', t)).

(** The life of the process of index.js: construct, [run], and the ready
    event. *)
Definition lifetime (cfg : Config.t) (a : Acquire) (cycles : list Cycle)
  : OnlineBot * list event :=
  let '(_, bot, t) := onReady a cycles (run (constructor cfg)) in (bot, t).

End Methods.

(* ================================================================== *)
(** ** A concrete host

    Node's wording of the TypeErrors and a decimal printer, exact on the
    integers below [2^53]; used to run the model on examples. *)

Definition decimal (z : Z) : jsstring :=
  js (DecimalString.NilZero.string_of_int (Z.to_int z)).

Definition node_Number_toString (n : number) : jsstring :=
  match n with
  | NaN => js "NaN"
  | Infinity false => js "Infinity"
  | Infinity true => js "-Infinity"
  | Fin z => decimal z
  end.

Definition node_TypeError_message (t : typeError) : jsstring :=
  match t with
  | ReadOfNull p =>
      js "Cannot read properties of null (reading '" ++ js p ++ js "')"
  | ReadOfUndefined p =>
      js "Cannot read properties of undefined (reading '" ++ js p ++ js "')"
  | NotAFunction f => js f ++ js " is not a function"
  end.

Definition node : Host :=
  {| Number_toString := node_Number_toString;
     TypeError_message := node_TypeError_message;
     formatPollRate := fun r => decimal r ++ js " seconds" |}.

Arguments edit : simpl never.
Arguments buildMessage : simpl never.
Arguments fetchTotalMemberCount : simpl never.
Arguments fetchWorldsMemberCount : simpl never.
Arguments getOrSendMessage : simpl never.
Arguments sort : simpl never.
Arguments defaultEmbed : simpl never.
Arguments countText : simpl never.
Arguments messages_fetch : simpl never.
Arguments isBotMessage : simpl never.
Arguments String_of_count : simpl never.
Arguments String_of_worlds : simpl never.
Arguments changed : simpl never.

(** Kinds of events: the log lines, and the edits of the tracked message. *)
Definition isLogLine (e : event) : bool :=
  match e with Log _ | LogError _ => true | _ => false end.

Definition isEdit (e : event) : bool :=
  match e with Edit _ _ => true | _ => false end.

(** The payload an event delivers to the platform, if it delivers one. *)
Definition delivered (e : event) : option Payload.t :=
  match e with
  | Send p | Edit _ p => Some p
  | _ => None
  end.

(* ================================================================== *)
(** ** What the design document calls an integer text *)

Definition isDecimalDigit (c : N) : bool := ((48 <=? c) && (c <=? 57))%N.

(** The value of a decimal numeral, digit by digit. *)
Fixpoint decimalValue (ds : jsstring) : Z :=
  match ds with
  | [] => 0
  | c :: r => (Z.of_N c - 48) * 10 ^ Z.of_nat (List.length r) + decimalValue r
  end.

Definition isNumeral (ds : jsstring) : bool :=
  match ds with
  | [] => false
  | _ => forallb isDecimalDigit ds
  end.

(** A valid base-10 integer: an optional sign and one or more decimal
    digits, nothing else; [validInteger] gives its value. *)
Definition validInteger (s : jsstring) : option Z :=
  match s with
  | 45%N :: ds => if isNumeral ds then Some (- decimalValue ds) else None
  | 43%N :: ds => if isNumeral ds then Some (decimalValue ds) else None
  | ds => if isNumeral ds then Some (decimalValue ds) else None
  end.

(** Does the text begin with an optional sign and a decimal digit? *)
Definition startsWithInteger (s : jsstring) : bool :=
  match s with
  | [] => false
  | c :: r =>
      if ((c =? 45) || (c =? 43))%N
      then match r with d :: _ => isDecimalDigit d | [] => false end
      else isDecimalDigit c
  end.

(** What may follow a numeral without changing what [parseInt] reads:
    nothing, or a character that is neither a digit nor [x]/[X]. *)
Definition stops (rest : jsstring) : Prop :=
  match rest with
  | [] => True
  | c :: _ => isDecimalDigit c = false
              /\ (c =? 120)%N = false /\ (c =? 88)%N = false
  end.

(** The text of a list node, and the count it holds if it parses. *)
Definition nodeText (i : Node) : option jsstring :=
  match firstChild i with
  | Some child => data child
  | None => None
  end.

Definition nodeCount (i : Node) : option number :=
  match nodeText i with
  | Some siteCount =>
      let count := parseInt (trim siteCount) in
      if Number_isNaN count then None else Some count
  | None => None
  end.

(** An integer-valued number, as [Number.isInteger] decides it. *)
Definition Number_isInteger (n : number) : bool :=
  match n with Fin _ => true | _ => false end.

(* ================================================================== *)
(** ** Notions the statements use *)

Section Notions.
Context `{Host}.

(** What every cycle starts with: the two fetches, and the lines logged up
    to the comparison with the cache. *)
Definition prelude (bot : OnlineBot) (newCount : option number)
  (t1 : list event) (w : option (list number)) (tw : list event)
  : list event :=
  [Log (js "Polling site...")] ++ t1
  ++ [Log (js "Fetched member count: " ++ String_of_count newCount)]
  ++ (if truthy (Config.worldsCount (config bot))
      then tw ++ [Log (js "Fetched worlds count: " ++ String_of_worlds w)]
      else []).

(** The ways the [try] block of a cycle can end, once the fetches have given
    [newCount], left the bot as [bot1] and logged [pre]. *)
Inductive cycleOutcome (c : Cycle) (bot : OnlineBot)
  (newCount : option number) (bot1 : OnlineBot) (pre : list event)
  : (Error + unit) * OnlineBot * list event -> Prop :=
| cycle_unchanged :
    changed newCount (cachedCount bot) = false ->
    cycleOutcome c bot newCount bot1 pre (inr tt, bot1, pre)
| cycle_no_message :
    changed newCount (cachedCount bot) = true ->
    messageRef bot = None ->
    cycleOutcome c bot newCount bot1 pre
      (inl (TypeError (ReadOfUndefined "edit")),
       set_cachedCount newCount bot1, pre)
| cycle_render_fails m e :
    changed newCount (cachedCount bot) = true ->
    messageRef bot = Some m ->
    buildMessage (now c) (set_cachedCount newCount bot1)
    = (inl e, set_cachedCount newCount bot1, []) ->
    cycleOutcome c bot newCount bot1 pre
      (inl e, set_cachedCount newCount bot1, pre)
| cycle_edit_rejected m p e :
    changed newCount (cachedCount bot) = true ->
    messageRef bot = Some m ->
    buildMessage (now c) (set_cachedCount newCount bot1)
    = (inr p, set_cachedCount newCount bot1, []) ->
    editReply c = Some e ->
    cycleOutcome c bot newCount bot1 pre
      (inl e, set_cachedCount newCount bot1, pre ++ [Edit m p])
| cycle_edited m p :
    changed newCount (cachedCount bot) = true ->
    messageRef bot = Some m ->
    buildMessage (now c) (set_cachedCount newCount bot1)
    = (inr p, set_cachedCount newCount bot1, []) ->
    editReply c = None ->
    cycleOutcome c bot newCount bot1 pre
      (inr tt, set_cachedCount newCount bot1,
       pre ++ [Edit m p; Log (js "Updated message")]).

(** What the two fetches of a cycle establish. *)
Record fetches (c : Cycle) (bot : OnlineBot)
  (newCount : option number) (bot1 : OnlineBot) (pre : list event)
  : Prop := {
  fetched_total :
    exists t1, fetchTotalMemberCount (totalPage c) bot
               = (inr newCount, bot, t1);
  fetched_valid :
    forall n, newCount = Some n ->
      Number_isNaN n = false
      /\ exists el, totalPage c = inr el /\ n = parseInt (trim (text el));
  fetched_worlds :
    exists w tw,
      fetchWorldsMemberCount (worldsPage c) bot = (inr w, bot, tw)
      /\ bot1 = (if truthy (Config.worldsCount (config bot))
                 then set_worldsCount w bot else bot);
  fetched_log : forallb isLogLine pre = true
}.

(** The lines [onReady] logs before it looks for its message. *)
Definition greeting (a : Acquire) (bot : OnlineBot) : list event :=
  [ Log (js "Bot is online, logged in as " ++ user_tag a);
    Log (js "Polling active member count from '" ++ Config.url (config bot)
           ++ js "' every "
           ++ formatPollRate (Config.pollRate (config bot))) ].

(** A cached count is validated when it is not NaN and is what [parseInt]
    made of the text some cycle of [pool] fetched. *)
Definition validated (pool : Cycle -> Prop) (bot : OnlineBot) : Prop :=
  match cachedCount bot with
  | None => True
  | Some n =>
      n <> NaN
      /\ exists c el, pool c /\ totalPage c = inr el
                      /\ n = parseInt (trim (text el))
  end.

(** What the loop over the template leaves under the name [k], for an
    embed [e] whose generated fields are [g]. *)
Definition mergedAt (e : object) (g : list jsval)
  (tpl : object) (k : jsstring) : option jsval :=
  if jsstring_eqb k (js "__proto__") then getOwn e k
  else
    match getOwn tpl k with
    | None => getOwn e k
    | Some v =>
        if jsstring_eqb k (js "fields") then Some (JArr (concat g v))
        else Some v
    end.

(** A payload of the shape [buildMessage] gives: one embed, no text. *)
Definition oneEmbed (p : Payload.t) : Prop :=
  exists embed,
    p = {| Payload.embeds := [embed]; Payload.content := js "" |}.

(** Messages in the order [newestFirst] sorts them. *)
Definition notOlder (x y : Message.t) : Prop :=
  Message.createdTimestamp y <= Message.createdTimestamp x.

End Notions.

(* ================================================================== *)
(** ** Further notions *)

Definition isSend (e : event) : bool :=
  match e with Send _ => true | _ => false end.

(** Hexadecimal digits and the value of a hexadecimal numeral. *)
Definition isHexDigit (c : N) : bool :=
  (((48 <=? c) && (c <=? 57)) || ((97 <=? c) && (c <=? 102))
   || ((65 <=? c) && (c <=? 70)))%N.

Definition hexDigitValue (c : N) : Z :=
  if (c <=? 57)%N then Z.of_N c - 48
  else if (c <=? 70)%N then Z.of_N c - 55
  else Z.of_N c - 87.

Fixpoint hexValue (hs : jsstring) : Z :=
  match hs with
  | [] => 0
  | c :: r => hexDigitValue c * 16 ^ Z.of_nat (List.length r) + hexValue r
  end.

(** The config template leaves the key [k] to the default embed. *)
Definition templateLacks (bot : OnlineBot) (k : jsstring) : Prop :=
  match Config.embed (config bot) with
  | None => True
  | Some tpl => getOwn tpl k = None
  end.

(** The config template, if there is one, is an object: no key twice. *)
Definition templateIsObject (bot : OnlineBot) : Prop :=
  match Config.embed (config bot) with
  | None => True
  | Some tpl => keysDistinct tpl = true
  end.

(** Two embeds that differ at most under [timestamp]. *)
Definition sameButTimestamp (e1 e2 : object) : Prop :=
  forall k, k <> js "timestamp" -> getOwn e1 k = getOwn e2 k.


(* ================================================================== *)
(** ** Sample inputs *)

Definition sampleConfig : Config.t :=
  {| Config.token := js "token";
     Config.channelId := js "1234";
     Config.url := js "https://example.org/";
     Config.totalCount := js "#total";
     Config.worldsCount := Some (js ".world");
     Config.pollRate := 30;
     Config.embed :=
       Some [ (js "title", JStr (js "X"));
              (js "fields", JArr [JStr (js "f")]) ] |}.

Definition sampleMessage : Message.t :=
  {| Message.id := js "77";
     Message.author_id := js "bot";
     Message.embeds := [JNull];
     Message.createdTimestamp := 500 |}.

(** A bot that has been started and has acquired its message. *)
Definition sampleBot : OnlineBot :=
  set_messageRef (Some sampleMessage) (run (constructor sampleConfig)).

Definition textNode (s : string) : Node :=
  {| firstChild := Some {| data := Some (js s) |} |}.

Definition page (total : string) (worlds : list string) : Element :=
  {| text := js total; nodes := List.map textNode worlds |}.

(* ================================================================== *)
(** ** Strings and [parseInt] *)

(** A bot whose cache already holds 42 and two segment counts. *)
Definition cachedBot : OnlineBot :=
  set_cachedCount (Some (Fin 42))
    (set_worldsCount (Some [Fin 1; Fin 2]) sampleBot).

(** A cycle in which both pages load and the edit goes through. *)
Definition goodCycle (total : string) (worlds : list string) : Cycle :=
  {| totalPage := inr (page total []);
     worldsPage := inr (page "" worlds);
     editReply := None;
     now := js "2024-01-01T00:00:00.000Z" |}.

(** The platform rejects the edit. *)
Definition rejectedCycle : Cycle :=
  {| totalPage := inr (page "43" []);
     worldsPage := inr (page "" ["1"; "2"]%string);
     editReply := Some (mkError (js "Unknown Message"));
     now := js "2024-01-01T00:00:00.000Z" |}.

(** The request for the aggregate count fails. *)
Definition failedFetchCycle : Cycle :=
  {| totalPage := inl (mkError (js "fetch failed"));
     worldsPage := inr (page "" ["1"; "2"]%string);
     editReply := None;
     now := js "2024-01-01T00:00:00.000Z" |}.

(** The aggregate count is as cached; the second segment does not parse. *)
Definition badSegmentCycle : Cycle := goodCycle "42" ["7"; "x"]%string.

(** A count of 309 digits. *)
Definition hugeCycle : Cycle :=
  {| totalPage := inr {| text := List.repeat 57%N 309; nodes := [] |};
     worldsPage := inr (page "" ["1"; "2"]%string);
     editReply := None;
     now := js "2024-01-01T00:00:00.000Z" |}.

Definition messageAt (i : string) (author : string) (embeds : list jsval)
  (t : Z) : Message.t :=
  {| Message.id := js i; Message.author_id := js author;
     Message.embeds := embeds; Message.createdTimestamp := t |}.

(** Eleven messages, most recent first; the bot wrote those at 900, 700
    and 300 with an embed, one at 800 without, and the oldest of all. *)
Definition busyChannel : Channel :=
  {| isTextBased := true;
     history :=
       [ messageAt "11" "alice" [] 1000;
         messageAt "10" "bot" [JNull] 700;
         messageAt "9" "bot" [JNull] 900;
         messageAt "8" "bot" [] 800;
         messageAt "7" "carol" [JNull] 650;
         messageAt "6" "alice" [] 600;
         messageAt "5" "alice" [] 500;
         messageAt "4" "alice" [] 400;
         messageAt "3" "bot" [JNull] 300;
         messageAt "2" "alice" [] 200;
         messageAt "1" "bot" [JNull] 100 ] |}.

Definition quietChannel : Channel :=
  {| isTextBased := true;
     history := [ messageAt "2" "alice" [] 200;
                  messageAt "1" "bot" [] 100 ] |}.

Definition acquireIn (channel : Channel) : Acquire :=
  {| user_id := js "bot";
     user_tag := js "bot#0001";
     channelReply := inr (Some channel);
     listReply := None;
     sendReply := inr (messageAt "12" "bot" [JNull] 1100);
     today := js "2024-01-01T00:00:00.000Z" |}.

(** A configuration with neither a segment selector nor a template. *)
Definition plainConfig : Config.t :=
  {| Config.token := js "token";
     Config.channelId := js "1234";
     Config.url := js "https://example.org/";
     Config.totalCount := js "#total";
     Config.worldsCount := None;
     Config.pollRate := 30;
     Config.embed := None |}.

Definition plainBot : OnlineBot :=
  set_worldsCount (Some [Fin 3; Fin 4])
    (set_messageRef (Some sampleMessage) (run (constructor plainConfig))).

(** A template whose [fields] is a string. *)
Definition oddConfig : Config.t :=
  {| Config.token := js "token";
     Config.channelId := js "1234";
     Config.url := js "https://example.org/";
     Config.totalCount := js "#total";
     Config.worldsCount := None;
     Config.pollRate := 30;
     Config.embed := Some [ (js "fields", JStr (js "note")) ] |}.

Definition oddBot : OnlineBot :=
  set_worldsCount (Some [Fin 3]) (run (constructor oddConfig)).

(** A list whose second element is empty. *)
Definition gappedList : Element :=
  {| text := js "";
     nodes := [ textNode "7"; {| firstChild := None |}; textNode "9" ] |}.

(** Two of the bot's messages carry the same, greatest timestamp. *)
Definition tiedChannel : Channel :=
  {| isTextBased := true;
     history :=
       [ messageAt "6" "bot" [JNull] 400;
         messageAt "5" "bot" [JNull] 900;
         messageAt "4" "bot" [JNull] 900;
         messageAt "3" "bot" [JNull] 100 ] |}.

Definition voiceChannel : Channel :=
  {| isTextBased := false; history := [] |}.

Definition acquireWith (reply : Error + option Channel)
  (listing : option Error) (sent : Error + Message.t) : Acquire :=
  {| user_id := js "bot";
     user_tag := js "bot#0001";
     channelReply := reply;
     listReply := listing;
     sendReply := sent;
     today := js "2024-01-01T00:00:00.000Z" |}.

Definition missingAccess : Error := mkError (js "Missing Access").

(** Case analysis on the comparisons of a goal. *)
Ltac by_cases :=
  match goal with
  | |- context [(?a <=? ?b)%N] => destruct (N.leb_spec a b)
  | |- context [(?a =? ?b)%N] => destruct (N.eqb_spec a b)
  | |- context [?a <? ?b] => destruct (Z.ltb_spec a b)
  | |- context [?a <=? ?b] => destruct (Z.leb_spec a b)
  | |- context [?a =? ?b] => destruct (Z.eqb_spec a b)
  end.

Section Parsing.

Lemma jsstring_eqb_eq (a b : jsstring) :
  jsstring_eqb a b = true <-> a = b.
Proof.
  revert b; induction a as [|x a IH]; intros [|y b]; simpl;
    try (split; [discriminate | congruence]); try tauto.
  rewrite andb_true_iff, N.eqb_eq, IH.
  split; [intros [-> ->]; reflexivity | intros E; inversion E; auto].
Qed.

Lemma jsstring_eqb_refl (a : jsstring) : jsstring_eqb a a = true.
Proof. apply jsstring_eqb_eq; reflexivity. Qed.

Lemma jsstring_eqb_neq (a b : jsstring) :
  a <> b -> jsstring_eqb a b = false.
Proof.
  intros D; destruct (jsstring_eqb a b) eqn:E; auto.
  apply jsstring_eqb_eq in E; contradiction.
Qed.

Lemma dropWhile_snoc {A} (p : A -> bool) (l : list A) (c : A) :
  p c = false -> dropWhile p (l ++ [c]) = dropWhile p l ++ [c].
Proof.
  intros Hc; induction l as [|x l IH]; simpl.
  - rewrite Hc; reflexivity.
  - destruct (p x); auto.
Qed.

(** A trimmed text is empty or starts with something visible. *)
Lemma trim_head (s : jsstring) :
  match trim s with
  | [] => True
  | c :: _ => isWhiteSpace c = false
  end.
Proof.
  unfold trim, trimStart, trimEnd.
  assert (Hd : match dropWhile isWhiteSpace s with
               | [] => True
               | c :: _ => isWhiteSpace c = false
               end).
  { induction s as [|x s IH]; simpl; auto.
    destruct (isWhiteSpace x) eqn:E; auto. }
  destruct (dropWhile isWhiteSpace s) as [|c u]; simpl; auto.
  rewrite dropWhile_snoc by exact Hd.
  rewrite rev_app_distr; simpl; exact Hd.
Qed.

Lemma trimStart_trim (s : jsstring) : trimStart (trim s) = trim s.
Proof.
  pose proof (trim_head s) as Hh.
  destruct (trim s) as [|c u]; simpl; auto.
  unfold trimStart; simpl; rewrite Hh; reflexivity.
Qed.

Lemma isDigit_10 (c : N) : isDigit 10 c = isDecimalDigit c.
Proof.
  unfold isDigit, digitValue, isDecimalDigit.
  repeat (by_cases; simpl); try reflexivity; lia.
Qed.

Lemma digitValue_decimal (c : N) :
  isDecimalDigit c = true -> digitValue 10 c = Some (Z.of_N c - 48).
Proof.
  unfold isDecimalDigit, digitValue; intros Hc; rewrite Hc.
  apply andb_true_iff in Hc; destruct Hc as [H1 H2].
  apply N.leb_le in H1, H2.
  destruct (Z.of_N c - 48 <? 10) eqn:E; auto.
  apply Z.ltb_ge in E; lia.
Qed.

Lemma decimalDigit_visible (c : N) :
  isDecimalDigit c = true -> isWhiteSpace c = false.
Proof.
  unfold isDecimalDigit; intros Hc.
  apply andb_true_iff in Hc; destruct Hc as [H1 H2].
  apply N.leb_le in H1, H2.
  unfold isWhiteSpace.
  repeat (by_cases; try lia); reflexivity.
Qed.

Lemma mathInt_acc (ds : jsstring) (acc : Z) :
  forallb isDecimalDigit ds = true ->
  fold_left
    (fun a c => a * 10 + match digitValue 10 c with
                         | Some d => d
                         | None => 0
                         end) ds acc
  = acc * 10 ^ Z.of_nat (List.length ds) + decimalValue ds.
Proof.
  revert acc; induction ds as [|c ds IH]; intros acc Hd.
  - simpl; lia.
  - simpl in Hd; apply andb_true_iff in Hd; destruct Hd as [Hc Hd].
    cbn [fold_left]; rewrite IH by exact Hd.
    rewrite (digitValue_decimal c Hc).
    cbn [decimalValue List.length].
    rewrite Nat2Z.inj_succ, Z.pow_succ_r by lia.
    ring.
Qed.

Lemma mathInt_decimal (ds : jsstring) :
  forallb isDecimalDigit ds = true -> mathInt 10 ds = decimalValue ds.
Proof.
  intros Hd; unfold mathInt; rewrite mathInt_acc by exact Hd; lia.
Qed.

Lemma takeWhile_app_stop {A} (p : A -> bool) (l rest : list A) :
  forallb p l = true ->
  match rest with [] => True | c :: _ => p c = false end ->
  takeWhile p (l ++ rest) = l.
Proof.
  intros Hl Hr; induction l as [|x l IH]; simpl.
  - destruct rest as [|c r]; simpl; auto. rewrite Hr; reflexivity.
  - simpl in Hl; apply andb_true_iff in Hl; destruct Hl as [Hx Hl].
    rewrite Hx, IH by exact Hl; reflexivity.
Qed.

Lemma toNumber_notNaN (z : Z) : toNumber z <> NaN.
Proof.
  unfold toNumber.
  destruct (Z.abs z <? 2 ^ 53); [discriminate|].
  match goal with |- context [if ?b then Infinity _ else _] =>
    destruct b end; discriminate.
Qed.

Lemma toNumber_safe (z : Z) : Z.abs z < 2 ^ 53 -> toNumber z = Fin z.
Proof.
  intros Hz; unfold toNumber.
  destruct (Z.ltb_spec (Z.abs z) (2 ^ 53)); [reflexivity | lia].
Qed.

Lemma isDigit_10_ext : forall l,
  forallb (isDigit 10) l = forallb isDecimalDigit l.
Proof.
  induction l as [|x l IH]; simpl; auto.
  rewrite isDigit_10, IH; reflexivity.
Qed.

Lemma decimalDigit_codes (c : N) :
  isDecimalDigit c = true ->
  (c =? 45)%N = false /\ (c =? 43)%N = false
  /\ (c =? 120)%N = false /\ (c =? 88)%N = false.
Proof.
  unfold isDecimalDigit; intros Hc.
  apply andb_true_iff in Hc; destruct Hc as [H1 H2].
  apply N.leb_le in H1, H2.
  repeat split; apply N.eqb_neq; lia.
Qed.

Lemma parseDigits_numeral (sign : Z) (ds rest : jsstring) :
  isNumeral ds = true -> stops rest ->
  (let '(radix, s2) := stripPrefix (ds ++ rest) in
   match takeWhile (isDigit radix) s2 with
   | [] => NaN
   | ds' => toNumber (sign * mathInt radix ds')
   end) = toNumber (sign * decimalValue ds).
Proof.
  intros Hn Hr.
  destruct ds as [|d ds]; [discriminate|].
  assert (Hall : forallb isDecimalDigit (d :: ds) = true) by exact Hn.
  assert (Hp : stripPrefix ((d :: ds) ++ rest) = (10, (d :: ds) ++ rest)).
  { unfold stripPrefix; simpl.
    destruct (ds ++ rest) as [|c1 r] eqn:E; auto.
    assert (Hc1 : (c1 =? 120)%N = false /\ (c1 =? 88)%N = false).
    { destruct ds as [|d' ds]; simpl in E.
      - subst rest; simpl in Hr; tauto.
      - inversion E; subst.
        simpl in Hall.
        apply andb_true_iff in Hall; destruct Hall as [_ Hall].
        apply andb_true_iff in Hall; destruct Hall as [Hd' _].
        apply decimalDigit_codes in Hd'; tauto. }
    destruct Hc1 as [-> ->]; rewrite andb_false_r; reflexivity. }
  rewrite Hp.
  rewrite takeWhile_app_stop.
  - rewrite mathInt_decimal by exact Hall; reflexivity.
  - rewrite isDigit_10_ext; exact Hall.
  - destruct rest as [|c r]; auto.
    rewrite isDigit_10; simpl in Hr; tauto.
Qed.

(** [parseInt] on a numeral, signed or not, followed by anything that
    stops it. *)
Lemma parseInt_numeral (ds rest : jsstring) :
  isNumeral ds = true -> stops rest ->
  parseInt (ds ++ rest) = toNumber (decimalValue ds)
  /\ parseInt (45%N :: ds ++ rest) = toNumber (- decimalValue ds)
  /\ parseInt (43%N :: ds ++ rest) = toNumber (decimalValue ds).
Proof.
  intros Hn Hr.
  pose proof (parseDigits_numeral 1 ds rest Hn Hr) as P1.
  pose proof (parseDigits_numeral (-1) ds rest Hn Hr) as P2.
  rewrite Z.mul_1_l in P1.
  replace (-1 * decimalValue ds) with (- decimalValue ds) in P2 by lia.
  repeat split.
  - destruct ds as [|d ds]; [discriminate|].
    assert (Hd : isDecimalDigit d = true).
    { simpl in Hn; apply andb_true_iff in Hn; tauto. }
    unfold parseInt, trimStart.
    cbn [app dropWhile]; rewrite (decimalDigit_visible d Hd).
    unfold readSign.
    destruct (decimalDigit_codes d Hd) as (-> & -> & _).
    exact P1.
  - unfold parseInt, trimStart, readSign.
    cbn [dropWhile]; change (isWhiteSpace 45) with false; cbv iota.
    change (45 =? 45)%N with true; cbv iota.
    exact P2.
  - unfold parseInt, trimStart, readSign.
    cbn [dropWhile]; change (isWhiteSpace 43) with false; cbv iota.
    change (43 =? 45)%N with false; change (43 =? 43)%N with true.
    cbv iota.
    exact P1.
Qed.

(** A valid integer is a numeral with or without a sign in front. *)
Lemma validInteger_cases (s : jsstring) (z : Z) :
  validInteger s = Some z ->
  exists ds,
    isNumeral ds = true
    /\ ((s = ds /\ z = decimalValue ds)
        \/ (s = 45%N :: ds /\ z = - decimalValue ds)
        \/ (s = 43%N :: ds /\ z = decimalValue ds)).
Proof.
  unfold validInteger; intros Hv.
  destruct s as [|c r]; [discriminate|].
  destruct (N.eq_dec c 45) as [->|N45].
  - destruct (isNumeral r) eqn:E; inversion Hv; subst; eauto 6.
  - destruct (N.eq_dec c 43) as [->|N43].
    + destruct (isNumeral r) eqn:E; inversion Hv; subst; eauto 6.
    + assert (Hv' : (if isNumeral (c :: r)
                     then Some (decimalValue (c :: r)) else None)
                    = Some z).
      { destruct c as [|p]; [exact Hv|].
        do 6 (destruct p as [p|p|]; try exact Hv);
          try (exfalso; apply N45; reflexivity);
          try (exfalso; apply N43; reflexivity). }
      destruct (isNumeral (c :: r)) eqn:E; inversion Hv'; subst; eauto 6.
Qed.

Lemma parseInt_validInteger (s : jsstring) (z : Z) :
  validInteger s = Some z -> parseInt s = toNumber z.
Proof.
  intros Hv.
  destruct (validInteger_cases s z Hv) as (ds & Hn & Hs).
  pose proof (parseInt_numeral ds [] Hn I) as P.
  rewrite app_nil_r in P; destruct P as (P1 & P2 & P3).
  destruct Hs as [[-> ->] | [[-> ->] | [-> ->]]]; assumption.
Qed.

Lemma dropWhile_all {A} (p : A -> bool) (l r : list A) :
  forallb p l = true -> dropWhile p (l ++ r) = dropWhile p r.
Proof.
  induction l as [|x l IH]; simpl; auto.
  intros Hl; apply andb_true_iff in Hl; destruct Hl as [-> Hl]; auto.
Qed.

Lemma forallb_rev {A} (p : A -> bool) (l : list A) :
  forallb p (rev l) = forallb p l.
Proof.
  induction l as [|x l IH]; simpl; auto.
  rewrite forallb_app, IH; simpl.
  rewrite andb_true_r; apply andb_comm.
Qed.

(** Trimming removes the white space around a text that starts and ends
    with something visible. *)
Lemma trim_surrounded (before core after : jsstring) :
  forallb isWhiteSpace before = true ->
  forallb isWhiteSpace after = true ->
  match core with c :: _ => isWhiteSpace c = false | [] => False end ->
  match rev core with c :: _ => isWhiteSpace c = false | [] => False end ->
  trim (before ++ core ++ after) = core.
Proof.
  intros Hb Ha Hfirst Hlast.
  unfold trim, trimStart, trimEnd.
  rewrite (dropWhile_all _ before _ Hb).
  destruct core as [|c core]; [contradiction|].
  cbn [app dropWhile]; rewrite Hfirst.
  change (c :: core ++ after) with ((c :: core) ++ after).
  rewrite rev_app_distr, dropWhile_all by (rewrite forallb_rev; exact Ha).
  destruct (rev (c :: core)) as [|d u] eqn:Er; [contradiction|].
  cbn [dropWhile]; rewrite Hlast, <- Er; apply rev_involutive.
Qed.

Lemma numeral_ends (ds : jsstring) :
  isNumeral ds = true ->
  match ds with c :: _ => isDecimalDigit c = true | [] => False end
  /\ match rev ds with c :: _ => isDecimalDigit c = true | [] => False end.
Proof.
  intros Hn; destruct ds as [|d ds]; [discriminate|].
  assert (Hall : forallb isDecimalDigit (d :: ds) = true) by exact Hn.
  split; [simpl in Hall; apply andb_true_iff in Hall; tauto|].
  rewrite <- forallb_rev in Hall.
  destruct (rev (d :: ds)) as [|c u] eqn:Er.
  - apply (f_equal (@List.length N)) in Er.
    rewrite length_rev in Er; discriminate Er.
  - simpl in Hall; apply andb_true_iff in Hall; tauto.
Qed.

(** The white space around a valid integer is what [trim] removes. *)
Lemma trim_validInteger (before core after : jsstring) (z : Z) :
  forallb isWhiteSpace before = true ->
  forallb isWhiteSpace after = true ->
  validInteger core = Some z ->
  trim (before ++ core ++ after) = core.
Proof.
  intros Hb Ha Hv.
  destruct (validInteger_cases core z Hv) as (ds & Hn & Hs).
  destruct (numeral_ends ds Hn) as [Hfirst Hlast].
  assert (Hends :
    match rev ds with c :: _ => isWhiteSpace c = false | [] => False end).
  { destruct (rev ds); [exact Hlast | apply decimalDigit_visible, Hlast]. }
  apply trim_surrounded; auto.
  - destruct Hs as [[-> _] | [[-> _] | [-> _]]]; try reflexivity.
    destruct ds; [exact Hfirst | apply decimalDigit_visible, Hfirst].
  - destruct Hs as [[-> _] | [[-> _] | [-> _]]]; [exact Hends | |];
      cbn [rev]; destruct (rev ds); try contradiction; exact Hends.
Qed.

(** A trimmed text that does not begin with an integer parses to NaN. *)
Lemma parseInt_no_integer (s : jsstring) :
  startsWithInteger (trim s) = false -> parseInt (trim s) = NaN.
Proof.
  intros Hs; unfold parseInt; rewrite trimStart_trim.
  destruct (trim s) as [|c r]; [reflexivity|].
  unfold startsWithInteger in Hs; unfold readSign.
  assert (Hstop : forall d u, isDecimalDigit d = false ->
            (let '(radix, s2) := stripPrefix (d :: u) in
             match takeWhile (isDigit radix) s2 with
             | [] => NaN
             | ds => toNumber (1 * mathInt radix ds)
             end) = NaN
         /\ (let '(radix, s2) := stripPrefix (d :: u) in
             match takeWhile (isDigit radix) s2 with
             | [] => NaN
             | ds => toNumber (-1 * mathInt radix ds)
             end) = NaN).
  { intros d u Hd.
    assert (Hp : stripPrefix (d :: u) = (10, d :: u)).
    { unfold stripPrefix; destruct u as [|c1 u]; auto.
      destruct (N.eqb_spec d 48) as [->|]; [discriminate Hd|].
      reflexivity. }
    rewrite Hp; cbn [takeWhile]; rewrite isDigit_10, Hd; auto. }
  destruct (N.eqb_spec c 45) as [->|N45].
  - simpl in Hs. destruct r as [|d u]; [reflexivity|].
    apply (Hstop d u Hs).
  - destruct (N.eqb_spec c 43) as [->|N43].
    + simpl in Hs. destruct r as [|d u]; [reflexivity|].
      apply (Hstop d u Hs).
    + rewrite orb_false_l in Hs. apply (Hstop c r Hs).
Qed.

End Parsing.

(* ================================================================== *)
(** ** How the methods run *)

(** Two traces are equal up to the bracketing of [++]. *)
Ltac trace_eq :=
  repeat first [rewrite <- app_assoc | rewrite app_nil_r | progress cbn [app]];
  try reflexivity.

Section Running.
Context `{Host}.

Lemma fetchTotal_run (page : Error + Element) (s : OnlineBot) :
  fetchTotalMemberCount page s =
  match page with
  | inl err =>
      (inr None, s,
       [LogError (js "Error fetching member count: " ++ message err)])
  | inr el =>
      if Number_isNaN (parseInt (trim (text el))) then
        (inr None, s,
         [LogError (js "Error fetching member count: " ++
            (js "Could not parse member count from the site. Expected a number but got '"
               ++ trim (text el) ++ js "'"))])
      else (inr (Some (parseInt (trim (text el)))), s, [])
  end.
Proof.
  destruct page as [e|el];
    unfold fetchTotalMemberCount, tryCatch, bind, await; simpl.
  - reflexivity.
  - destruct (Number_isNaN _); reflexivity.
Qed.

(** The aggregate fetch never throws, never touches the bot, and only
    writes to the log; a count it returns is a parsed one. *)
Lemma fetchTotal_shape (page : Error + Element) :
  exists r t,
    (forall s, fetchTotalMemberCount page s = (inr r, s, t))
    /\ forallb isLogLine t = true
    /\ (forall n, r = Some n ->
          Number_isNaN n = false
          /\ exists el, page = inr el /\ n = parseInt (trim (text el))).
Proof.
  destruct page as [e|el].
  - do 2 eexists; split; [intros s; rewrite fetchTotal_run; reflexivity|].
    split; [reflexivity | discriminate].
  - destruct (Number_isNaN (parseInt (trim (text el)))) eqn:E.
    + do 2 eexists; split;
        [intros s; rewrite fetchTotal_run, E; reflexivity|].
      split; [reflexivity | discriminate].
    + do 2 eexists; split;
        [intros s; rewrite fetchTotal_run, E; reflexivity|].
      split; [reflexivity|].
      intros n [= <-]; split; [exact E | eauto].
Qed.

Lemma worldsLoop_shape (l : list Node) :
  forall acc, exists r, forall s, worldsLoop l acc s = (r, s, []).
Proof.
  induction l as [|i l IH]; intros acc; simpl.
  - eexists; reflexivity.
  - destruct (firstChild i) as [ch|]; [|eexists; reflexivity].
    destruct (data ch) as [t|]; [|eexists; reflexivity].
    destruct (Number_isNaN _); [eexists; reflexivity|].
    apply IH.
Qed.

Lemma fetchWorlds_of_loop (el : Element) (s : OnlineBot) r :
  worldsLoop (nodes el) [] s = (r, s, []) ->
  fetchWorldsMemberCount (inr el) s =
  match r with
  | inl err =>
      (inr None, s,
       [LogError (js "Error fetching member count: " ++ message err)])
  | inr l => (inr (Some l), s, [])
  end.
Proof.
  intros Hr.
  unfold fetchWorldsMemberCount, tryCatch, bind, await; simpl.
  rewrite Hr; destruct r; reflexivity.
Qed.

(** Neither does the segment fetch. *)
Lemma fetchWorlds_shape (page : Error + Element) :
  exists w t,
    (forall s, fetchWorldsMemberCount page s = (inr w, s, t))
    /\ forallb isLogLine t = true.
Proof.
  destruct page as [e|el].
  - do 2 eexists; split; [intros s; reflexivity | reflexivity].
  - destruct (worldsLoop_shape (nodes el) []) as [r Hr].
    destruct r as [e|l].
    + do 2 eexists; split;
        [intros s; rewrite (fetchWorlds_of_loop el s _ (Hr s)); reflexivity
        | reflexivity].
    + do 2 eexists; split;
        [intros s; rewrite (fetchWorlds_of_loop el s _ (Hr s)); reflexivity
        | reflexivity].
Qed.

Lemma applyKeys_shape (l : list (jsstring * jsval)) :
  forall embed, exists r, forall s, applyKeys embed l s = (r, s, []).
Proof.
  induction l as [|[k v] l IH]; intros embed; simpl.
  - eexists; reflexivity.
  - unfold bind, applyKey.
    destruct (jsstring_eqb k (js "fields")).
    + destruct (getOwn embed k) as [[| | | | |g|]|];
        try (eexists; reflexivity).
      destruct (IH (setProp embed k (JArr (concat g v)))) as [r Hr].
      exists r; intros s; simpl; rewrite Hr; reflexivity.
    + destruct (IH (setProp embed k v)) as [r Hr].
      exists r; intros s; simpl; rewrite Hr; reflexivity.
Qed.

(** Rendering is pure: it reads the bot and does nothing else. *)
Lemma buildMessage_shape (ts : jsstring) (bot : OnlineBot) :
  exists r, buildMessage ts bot = (r, bot, []).
Proof.
  unfold buildMessage, bind, this; simpl.
  destruct (worldsCount bot) as [w|]; simpl; [|eexists; reflexivity].
  destruct (Config.embed (config bot)) as [ce|]; simpl;
    [|eexists; reflexivity].
  unfold applyConfigEmbed.
  destruct ce as [|kv ce]; [eexists; reflexivity|].
  destruct (hasOwn _ _); [eexists; reflexivity|].
  match goal with
  | |- context [applyKeys ?e ?l bot] =>
      destruct (applyKeys_shape l e) as [r Hr]; rewrite Hr
  end.
  destruct r; eexists; reflexivity.
Qed.

Lemma edit_run (ts : jsstring) (reply : option Error) (bot : OnlineBot) :
  edit (buildMessage ts) reply bot =
  match messageRef bot with
  | None => (inl (TypeError (ReadOfUndefined "edit")), bot, [])
  | Some m =>
      match buildMessage ts bot with
      | (inl e, _, _) => (inl e, bot, [])
      | (inr p, _, _) =>
          match reply with
          | Some e => (inl e, bot, [Edit m p])
          | None => (inr tt, bot, [Edit m p])
          end
      end
  end.
Proof.
  unfold edit, bind, this; simpl.
  destruct (messageRef bot) as [m|]; [|reflexivity].
  destruct (buildMessage_shape ts bot) as [r ->].
  destruct r as [e|p]; [reflexivity|].
  destruct reply; reflexivity.
Qed.

(** The [try] block of [poll], step by step. *)
Lemma pollBody_run (c : Cycle) (bot : OnlineBot) newCount t1 w tw :
  fetchTotalMemberCount (totalPage c) bot = (inr newCount, bot, t1) ->
  fetchWorldsMemberCount (worldsPage c) bot = (inr w, bot, tw) ->
  let enabled := truthy (Config.worldsCount (config bot)) in
  let bot1 := if enabled then set_worldsCount w bot else bot in
  let pre :=
    [Log (js "Polling site...")] ++ t1
    ++ [Log (js "Fetched member count: " ++ String_of_count newCount)]
    ++ (if enabled
        then tw ++ [Log (js "Fetched worlds count: " ++ String_of_worlds w)]
        else []) in
  pollBody c bot =
  if changed newCount (cachedCount bot) then
    let bot2 := set_cachedCount newCount bot1 in
    match edit (buildMessage (now c)) (editReply c) bot2 with
    | (inl e, _, t) => (inl e, bot2, pre ++ t)
    | (inr _, _, t) =>
        (inr tt, bot2, pre ++ t ++ [Log (js "Updated message")])
    end
  else (inr tt, bot1, pre).
Proof.
  intros E1 E2 enabled bot1 pre.
  unfold pollBody, bind, log, emit, this; rewrite E1.
  fold enabled.
  subst bot1 pre; destruct enabled.
  - unfold update; rewrite E2; cbn.
    destruct (changed _ _); [|cbn; trace_eq].
    rewrite edit_run; cbn.
    destruct (messageRef bot); [|cbn; trace_eq].
    match goal with
    | |- context [buildMessage ?a ?b] =>
        destruct (buildMessage_shape a b) as [r ->]
    end.
    destruct r; cbn; [trace_eq|].
    destruct (editReply c); cbn; trace_eq.
  - cbn.
    destruct (changed _ _); [|cbn; trace_eq].
    unfold update; rewrite edit_run; cbn.
    destruct (messageRef bot); [|cbn; trace_eq].
    match goal with
    | |- context [buildMessage ?a ?b] =>
        destruct (buildMessage_shape a b) as [r ->]
    end.
    destruct r; cbn; [trace_eq|].
    destruct (editReply c); cbn; trace_eq.
Qed.

(** [poll] around its [try] block. *)
Lemma poll_run (c : Cycle) (bot : OnlineBot) :
  poll c bot =
  match pollBody c bot with
  | (inl err, bot1, t) =>
      (set_running false bot1,
       t ++ [LogError (js "Error during polling: " ++ message err)])
  | (inr _, bot1, t) =>
      if running bot1
      then (bot1, t ++ [SetTimeout (Config.pollRate (config bot1) * 1000)])
      else (bot1, t)
  end.
Proof.
  unfold poll, tryCatch.
  destruct (pollBody c bot) as [[[err|[]] bot1] t]; cbn; trace_eq.
Qed.

End Running.

(* ================================================================== *)
(** ** The count extractor *)

Section CountExtractor.
Context `{Host}.

(** C2, as the code has it.  The aggregate extraction returns the integer
    when the trimmed text is a valid base-10 integer of magnitude below
    [2^53], so also when such an integer has white space around it; it
    accepts a numeral followed by other characters as well and returns
    the numeral read so far; when the trimmed text does not begin with an
    integer (the empty text included) the error carrying the trimmed text
    is raised and caught inside the function, which logs it and returns
    [undefined] instead of a number. *)
Theorem C2_extractAggregate (element : Element) (bot : OnlineBot) :
  let siteCount := trim (text element) in
  (forall z, validInteger siteCount = Some z -> Z.abs z < 2 ^ 53 ->
     fetchTotalMemberCount (inr element) bot
     = (inr (Some (Fin z)), bot, []))
  /\ (forall before core after z,
        text element = before ++ core ++ after ->
        forallb isWhiteSpace before = true ->
        forallb isWhiteSpace after = true ->
        validInteger core = Some z -> Z.abs z < 2 ^ 53 ->
        fetchTotalMemberCount (inr element) bot
        = (inr (Some (Fin z)), bot, []))
  /\ (forall ds rest, isNumeral ds = true -> stops rest ->
        siteCount = ds ++ rest ->
        fetchTotalMemberCount (inr element) bot
        = (inr (Some (toNumber (decimalValue ds))), bot, []))
  /\ (startsWithInteger siteCount = false ->
        fetchTotalMemberCount (inr element) bot
        = (inr None, bot,
           [LogError (js "Error fetching member count: " ++
              (js "Could not parse member count from the site. Expected a number but got '"
                 ++ siteCount ++ js "'"))])).
Proof.
  intros siteCount; subst siteCount.
  assert (Valid : forall z,
            validInteger (trim (text element)) = Some z ->
            Z.abs z < 2 ^ 53 ->
            fetchTotalMemberCount (inr element) bot
            = (inr (Some (Fin z)), bot, [])).
  { intros z Hv Hz; rewrite fetchTotal_run.
    rewrite (parseInt_validInteger _ _ Hv), (toNumber_safe z Hz).
    reflexivity. }
  split; [exact Valid|]. split; [|split].
  - intros before core after z E Hb Ha Hv Hz; apply Valid; [|exact Hz].
    rewrite E, (trim_validInteger before core after z Hb Ha Hv).
    exact Hv.
  - intros ds rest Hn Hr E; rewrite fetchTotal_run, E.
    destruct (parseInt_numeral ds rest Hn Hr) as (-> & _).
    pose proof (toNumber_notNaN (decimalValue ds)) as NN.
    destruct (toNumber (decimalValue ds)); [contradiction| |]; reflexivity.
  - intros Hs; rewrite fetchTotal_run, (parseInt_no_integer _ Hs).
    reflexivity.
Qed.

Lemma worldsLoop_ok (l : list Node) :
  Forall (fun i => nodeCount i <> None) l ->
  exists counts,
    List.length counts = List.length l
    /\ List.map Some counts = List.map nodeCount l
    /\ forall acc s, worldsLoop l acc s = (inr (acc ++ counts), s, []).
Proof.
  induction 1 as [|i l Hi Hl IH].
  - exists []; repeat split; intros; simpl; rewrite app_nil_r; reflexivity.
  - destruct IH as (counts & Hlen & Hmap & Hrun).
    unfold nodeCount, nodeText in Hi.
    destruct (firstChild i) as [ch|] eqn:Ec; [|contradiction].
    destruct (data ch) as [t|] eqn:Ed; [|contradiction].
    destruct (Number_isNaN (parseInt (trim t))) eqn:En; [contradiction|].
    exists (parseInt (trim t) :: counts); repeat split.
    + simpl; rewrite Hlen; reflexivity.
    + simpl; rewrite Hmap; unfold nodeCount, nodeText.
      rewrite Ec, Ed, En; reflexivity.
    + intros acc s; simpl; rewrite Ec, Ed, En, Hrun.
      rewrite <- app_assoc; reflexivity.
Qed.

Lemma worldsLoop_bad (before after : list Node) (bad : Node) siteCount :
  Forall (fun i => nodeCount i <> None) before ->
  nodeText bad = Some siteCount ->
  parseInt (trim siteCount) = NaN ->
  forall acc s,
    worldsLoop (before ++ bad :: after) acc s
    = (inl (mkError
         (js "Could not parse worlds member count from the site. Expected a number but got '"
            ++ trim siteCount ++ js "'")), s, []).
Proof.
  intros Hb Ht Hn; induction Hb as [|i l Hi Hl IH]; intros acc s.
  - unfold nodeText in Ht; simpl.
    destruct (firstChild bad) as [ch|]; [|discriminate].
    rewrite Ht, Hn; reflexivity.
  - unfold nodeCount, nodeText in Hi; simpl.
    destruct (firstChild i) as [ch|]; [|contradiction].
    destruct (data ch) as [t|]; [|contradiction].
    destruct (Number_isNaN (parseInt (trim t))); [contradiction|].
    apply IH.
Qed.

(** C7, as the code has it.  Over N elements whose first child's trimmed
    text parses, the segment extraction returns the N counts in document
    order.  At the first entry that does not parse, the error carrying
    the offending trimmed text (and nothing about its position) is
    raised and caught inside the function, which logs it and returns
    [undefined]: no partial sequence is returned. *)
Theorem C7_extractSegments (element : Element) (bot : OnlineBot) :
  (Forall (fun i => nodeCount i <> None) (nodes element) ->
     exists counts,
       fetchWorldsMemberCount (inr element) bot
       = (inr (Some counts), bot, [])
       /\ List.length counts = List.length (nodes element)
       /\ List.map Some counts = List.map nodeCount (nodes element))
  /\ (forall before bad after siteCount,
        nodes element = before ++ bad :: after ->
        Forall (fun i => nodeCount i <> None) before ->
        nodeText bad = Some siteCount ->
        parseInt (trim siteCount) = NaN ->
        fetchWorldsMemberCount (inr element) bot
        = (inr None, bot,
           [LogError (js "Error fetching member count: " ++
              (js "Could not parse worlds member count from the site. Expected a number but got '"
                 ++ trim siteCount ++ js "'"))])).
Proof.
  split.
  - intros Hall.
    destruct (worldsLoop_ok _ Hall) as (counts & Hlen & Hmap & Hrun).
    exists counts; repeat split; auto.
    rewrite (fetchWorlds_of_loop element bot (inr counts)); [reflexivity|].
    rewrite Hrun; reflexivity.
  - intros before bad after siteCount E Hb Ht Hn.
    pose proof (worldsLoop_bad before after bad siteCount Hb Ht Hn [] bot)
      as Hrun.
    rewrite <- E in Hrun.
    rewrite (fetchWorlds_of_loop element bot _ Hrun); reflexivity.
Qed.

End CountExtractor.

(* ================================================================== *)
(** ** The poll scheduler *)

Section PollScheduler.
Context `{Host}.

Lemma number_eqb_eq (a b : number) : number_eqb a b = true -> a = b.
Proof.
  destruct a as [|s|x], b as [|t|y]; simpl; try discriminate.
  - intros E; apply Bool.eqb_prop in E; congruence.
  - intros E; apply Z.eqb_eq in E; congruence.
Qed.

Lemma number_eqb_refl (a : number) :
  Number_isNaN a = false -> number_eqb a a = true.
Proof.
  destruct a as [|s|x]; simpl; intros E; try discriminate.
  - apply Bool.eqb_reflx.
  - apply Z.eqb_refl.
Qed.

(** The guard lets a validated count through exactly when it differs from
    the cached one. *)
Lemma changed_iff (n : number) (cached : option number) :
  Number_isNaN n = false ->
  changed (Some n) cached = true <-> cached <> Some n.
Proof.
  intros Hn; unfold changed; rewrite Hn; simpl.
  destruct cached as [c|]; [|split; [discriminate | reflexivity]].
  destruct (number_eqb n c) eqn:E; simpl.
  - apply number_eqb_eq in E; subst; split; [discriminate | congruence].
  - split; [|reflexivity].
    intros _ [= ->]; rewrite (number_eqb_refl n Hn) in E; discriminate.
Qed.

Lemma logLines_no_edit (t : list event) :
  forallb isLogLine t = true -> filter isEdit t = [].
Proof.
  induction t as [|e t IH]; simpl; auto.
  intros Hq; apply andb_true_iff in Hq; destruct Hq as [He Ht].
  destruct e; simpl in *; try discriminate; auto.
Qed.

Lemma logLines_no_timer (t : list event) :
  forallb isLogLine t = true -> existsb isSetTimeout t = false.
Proof.
  induction t as [|e t IH]; simpl; auto.
  intros Hq; apply andb_true_iff in Hq; destruct Hq as [He Ht].
  destruct e; simpl in *; try discriminate; auto.
Qed.

Lemma prelude_logLines bot newCount t1 w tw :
  forallb isLogLine t1 = true -> forallb isLogLine tw = true ->
  forallb isLogLine (prelude bot newCount t1 w tw) = true.
Proof.
  intros H1 H2; unfold prelude.
  rewrite !forallb_app, H1; simpl.
  destruct (truthy _); simpl; auto.
  rewrite forallb_app, H2; reflexivity.
Qed.

(** A cycle whose aggregate fetch gave nothing new: no edit, the cache of
    the count untouched, the flag untouched. *)
Lemma poll_unchanged (c : Cycle) (bot : OnlineBot) newCount t1 :
  fetchTotalMemberCount (totalPage c) bot = (inr newCount, bot, t1) ->
  forallb isLogLine t1 = true ->
  changed newCount (cachedCount bot) = false ->
  exists bot1 t,
    pollBody c bot = (inr tt, bot1, t)
    /\ forallb isLogLine t = true
    /\ cachedCount bot1 = cachedCount bot
    /\ messageRef bot1 = messageRef bot
    /\ running bot1 = running bot
    /\ config bot1 = config bot.
Proof.
  intros E1 Q1 Hc.
  destruct (fetchWorlds_shape (worldsPage c)) as (w & tw & E2 & Q2).
  rewrite (pollBody_run c bot newCount t1 w tw E1 (E2 bot)), Hc.
  do 2 eexists; split; [reflexivity|].
  split; [apply (prelude_logLines bot newCount t1 w tw Q1 Q2)|].
  destruct (truthy _); repeat split; reflexivity.
Qed.

(** C9.  When the aggregate fetch or its parse fails,
    [fetchTotalMemberCount] catches the error itself, logs it and returns
    [undefined]; the cycle then leaves [cachedCount] and the tracked
    message alone and issues no edit, [running] keeps its value, and a
    running bot arms the timer for the next cycle, which does run. *)
Theorem C9_aggregate_failure_is_contained (c : Cycle) (bot : OnlineBot) :
  ((exists err, totalPage c = inl err)
   \/ (exists el, totalPage c = inr el
                  /\ parseInt (trim (text el)) = NaN)) ->
  (exists line,
     fetchTotalMemberCount (totalPage c) bot
     = (inr None, bot, [LogError line]))
  /\ cachedCount (fst (poll c bot)) = cachedCount bot
  /\ messageRef (fst (poll c bot)) = messageRef bot
  /\ filter isEdit (snd (poll c bot)) = []
  /\ running (fst (poll c bot)) = running bot
  /\ (running bot = true ->
      existsb isSetTimeout (snd (poll c bot)) = true
      /\ forall rest,
           pollLoop (c :: rest) bot
           = (fst (pollLoop rest (fst (poll c bot))),
              snd (poll c bot) ++ snd (pollLoop rest (fst (poll c bot))))).
Proof.
  intros Hfail.
  assert (E1 : exists line,
             fetchTotalMemberCount (totalPage c) bot
             = (inr None, bot, [LogError line])).
  { rewrite fetchTotal_run.
    destruct Hfail as [[err ->] | (el & -> & ->)]; eexists; reflexivity. }
  split; [exact E1|].
  destruct E1 as (line & E1).
  destruct (poll_unchanged c bot None [LogError line] E1 eq_refl eq_refl)
    as (bot1 & t & Eb & Q & Hc & Hm & Hr & Hcfg).
  rewrite poll_run, Eb.
  assert (Ht : existsb isSetTimeout t = false) by apply (logLines_no_timer t Q).
  destruct (running bot1) eqn:Er; cbn [fst snd].
  - split; [exact Hc|]. split; [exact Hm|].
    split; [rewrite filter_app, (logLines_no_edit t Q); reflexivity|].
    split; [congruence|].
    intros _; split.
    + rewrite existsb_app; simpl; apply orb_true_r.
    + intros rest; cbn [pollLoop]; rewrite poll_run, Eb, Er.
      rewrite existsb_app; simpl; rewrite orb_true_r.
      destruct (pollLoop rest bot1); reflexivity.
  - split; [exact Hc|]. split; [exact Hm|].
    split; [apply (logLines_no_edit t Q)|].
    split; [congruence|].
    intros Hrun; congruence.
Qed.


Lemma pollBody_outcome (c : Cycle) (bot : OnlineBot) :
  exists newCount bot1 pre,
    fetches c bot newCount bot1 pre
    /\ cycleOutcome c bot newCount bot1 pre (pollBody c bot).
Proof.
  destruct (fetchTotal_shape (totalPage c)) as (newCount & t1 & E1 & Q1 & V).
  destruct (fetchWorlds_shape (worldsPage c)) as (w & tw & E2 & Q2).
  exists newCount,
    (if truthy (Config.worldsCount (config bot))
     then set_worldsCount w bot else bot),
    (prelude bot newCount t1 w tw).
  split.
  - constructor; eauto.
    apply prelude_logLines; assumption.
  - rewrite (pollBody_run c bot newCount t1 w tw (E1 bot) (E2 bot)).
    fold (prelude bot newCount t1 w tw).
    set (bot1 := if truthy _ then _ else _).
    assert (Hm : messageRef bot1 = messageRef bot)
      by (subst bot1; destruct (truthy _); reflexivity).
    destruct (changed newCount (cachedCount bot)) eqn:Hc;
      [|constructor; exact Hc].
    cbv zeta; rewrite edit_run.
    change (messageRef (set_cachedCount newCount bot1))
      with (messageRef bot1); rewrite Hm.
    destruct (messageRef bot) as [m|] eqn:Em.
    + destruct (buildMessage_shape (now c) (set_cachedCount newCount bot1))
        as [r Er]; rewrite Er.
      destruct r as [e|p].
      * rewrite app_nil_r; eapply cycle_render_fails; eauto.
      * destruct (editReply c) as [e|] eqn:Ee.
        -- eapply cycle_edit_rejected; eauto.
        -- eapply cycle_edited; eauto.
    + rewrite app_nil_r; apply cycle_no_message; auto.
Qed.

Lemma logLines_not_delivery (t : list event) (e : event) :
  forallb isLogLine t = true -> In e t -> isLogLine e = true.
Proof. intros Q; apply (proj1 (forallb_forall _ _) Q). Qed.

(** The [try] block never arms the timer. *)
Lemma pollBody_no_timer (c : Cycle) (bot : OnlineBot) :
  existsb isSetTimeout (snd (pollBody c bot)) = false.
Proof.
  destruct (pollBody_outcome c bot) as (newCount & bot1 & pre & F & O).
  pose proof (logLines_no_timer pre (fetched_log _ _ _ _ _ F)) as Q.
  inversion O; cbn [snd]; try exact Q;
    rewrite existsb_app, Q; reflexivity.
Qed.

(** C1, as the code has it.  An error that reaches the cycle boundary is
    caught there and logged, [running] becomes false, no timer is armed
    and no further cycle runs; a rejected edit of the tracked message is
    such an error.  The two fetch methods catch their own errors: they
    always return, so a failed fetch or parse does not reach the
    boundary. *)
Theorem C1_error_at_the_cycle_boundary (c : Cycle) (bot : OnlineBot) :
  (forall err bot1 t,
     pollBody c bot = (inl err, bot1, t) ->
     poll c bot
     = (set_running false bot1,
        t ++ [LogError (js "Error during polling: " ++ message err)])
     /\ running (fst (poll c bot)) = false
     /\ existsb isSetTimeout (snd (poll c bot)) = false
     /\ forall rest, pollLoop (c :: rest) bot = poll c bot)
  /\ (forall err m p,
        In (Edit m p) (snd (poll c bot)) -> editReply c = Some err ->
        exists bot1 t, pollBody c bot = (inl err, bot1, t))
  /\ (exists newCount tq w tw,
        fetchTotalMemberCount (totalPage c) bot = (inr newCount, bot, tq)
        /\ fetchWorldsMemberCount (worldsPage c) bot = (inr w, bot, tw)).
Proof.
  split; [|split].
  3: { destruct (fetchTotal_shape (totalPage c)) as (r & tq & E1 & _).
       destruct (fetchWorlds_shape (worldsPage c)) as (w & tw & E2 & _).
       exists r, tq, w, tw; split; [apply E1 | apply E2]. }
  - intros err bot1 t E.
    pose proof (pollBody_no_timer c bot) as Q; rewrite E in Q; cbn in Q.
    assert (P : poll c bot
                = (set_running false bot1,
                   t ++ [LogError (js "Error during polling: "
                                     ++ message err)]))
      by (rewrite poll_run, E; reflexivity).
    assert (T : existsb isSetTimeout (snd (poll c bot)) = false)
      by (rewrite P; cbn [snd]; rewrite existsb_app, Q; reflexivity).
    split; [exact P|]. split; [rewrite P; reflexivity|].
    split; [exact T|].
    intros rest; cbn [pollLoop].
    destruct (poll c bot) as [b1 t1]; cbn [snd] in T; rewrite T; reflexivity.
  - intros err m p Hin Hrej.
    destruct (pollBody_outcome c bot) as (newCount & bot1 & pre & F & O).
    pose proof (fetched_log _ _ _ _ _ F) as Q.
    assert (NoEdit : forall t', forallb isLogLine t' = true ->
                                ~ In (Edit m p) t').
    { intros t' Q' Hin'.
      pose proof (logLines_not_delivery t' _ Q' Hin') as Bad.
      discriminate Bad. }
    rewrite poll_run in Hin.
    inversion O as [Hc Eo | Hc Hm Eo | m' e Hc Hm Hb Eo
                   | m' p' e Hc Hm Hb Hr Eo | m' p' Hc Hm Hb Hr Eo];
      rewrite <- Eo in Hin.
    + exfalso; destruct (running bot1); cbn [snd] in Hin.
      * apply in_app_or in Hin; destruct Hin as [Hin|[Hin|[]]];
          [exact (NoEdit pre Q Hin) | discriminate Hin].
      * exact (NoEdit pre Q Hin).
    + exfalso; cbn [snd] in Hin.
      apply in_app_or in Hin; destruct Hin as [Hin|[Hin|[]]];
        [exact (NoEdit pre Q Hin) | discriminate Hin].
    + exfalso; cbn [snd] in Hin.
      apply in_app_or in Hin; destruct Hin as [Hin|[Hin|[]]];
        [exact (NoEdit pre Q Hin) | discriminate Hin].
    + rewrite Hr in Hrej; injection Hrej as ->.
      do 2 eexists; reflexivity.
    + rewrite Hr in Hrej; discriminate Hrej.
Qed.

(** A cycle without a caught error ends in the state of its [try] block
    and adds at most the timer to its events. *)
Lemma poll_completed (c : Cycle) (bot bot' : OnlineBot) (t : list event) :
  pollBody c bot = (inr tt, bot', t) ->
  fst (poll c bot) = bot'
  /\ filter isEdit (snd (poll c bot)) = filter isEdit t.
Proof.
  intros E; rewrite poll_run, E.
  destruct (running bot'); cbn [fst snd]; split; auto.
  rewrite filter_app; cbn; apply app_nil_r.
Qed.

(** C3.  In a cycle that fetched the count [n] and completed without an
    error: if [n] equals [cachedCount], no edit is issued and the cached
    count stays; if it differs, exactly one edit is issued, with the
    message rebuilt from the updated bot, and [cachedCount] becomes [n].
    The segment counts play no part in the decision. *)
Theorem C3_change_gating (c : Cycle) (bot bot' : OnlineBot)
  (n : number) (tq t : list event) :
  fetchTotalMemberCount (totalPage c) bot = (inr (Some n), bot, tq) ->
  pollBody c bot = (inr tt, bot', t) ->
  (cachedCount bot = Some n ->
     filter isEdit (snd (poll c bot)) = []
     /\ cachedCount (fst (poll c bot)) = cachedCount bot)
  /\ (cachedCount bot <> Some n ->
        exists m p,
          messageRef bot = Some m
          /\ buildMessage (now c) (fst (poll c bot))
             = (inr p, fst (poll c bot), [])
          /\ filter isEdit (snd (poll c bot)) = [Edit m p]
          /\ cachedCount (fst (poll c bot)) = Some n).
Proof.
  intros E1 Eb.
  destruct (poll_completed c bot bot' t Eb) as [-> ->].
  destruct (pollBody_outcome c bot) as (newCount & bot1 & pre & F & O).
  destruct (fetched_total _ _ _ _ _ F) as (t1 & E1').
  rewrite E1 in E1'; injection E1' as <- _.
  destruct (fetched_valid _ _ _ _ _ F n eq_refl) as (Hn & _).
  pose proof (changed_iff n (cachedCount bot) Hn) as Hiff.
  pose proof (logLines_no_edit pre (fetched_log _ _ _ _ _ F)) as Q.
  assert (Hc1 : cachedCount bot1 = cachedCount bot).
  { destruct (fetched_worlds _ _ _ _ _ F) as (w & tw & _ & ->).
    destruct (truthy _); reflexivity. }
  rewrite Eb in O.
  inversion O as [Hc Eo | Hc Hm Eo | m' e Hc Hm Hb Eo
                 | m' p' e Hc Hm Hb Hr Eo | m' p' Hc Hm Hb Hr Eo]; subst.
  - split.
    + intros _; split; [exact Q | exact Hc1].
    + intros Hne; apply Hiff in Hne; congruence.
  - split.
    + intros Heq; apply Hiff in Hc; contradiction.
    + intros _; exists m', p'; repeat split; auto.
      rewrite filter_app, Q; reflexivity.
Qed.

End PollScheduler.

(* ================================================================== *)
(** ** Acquisition and the life of the process *)

Section Lifetime.
Context `{Host}.

Lemma insert_nonempty {A} (compare : A -> A -> Z) (x : A) (l : list A) :
  insert compare x l <> [].
Proof. destruct l; simpl; [|destruct (_ <=? _)]; discriminate. Qed.

Lemma sort_nonempty {A} (compare : A -> A -> Z) (x : A) (l : list A) :
  sort compare (x :: l) <> [].
Proof. unfold sort; simpl; apply insert_nonempty. Qed.

Lemma getOrSendMessage_run (a : Acquire) (bot : OnlineBot) :
  getOrSendMessage a bot =
  match channelReply a with
  | inl e => (inl e, bot, [])
  | inr None =>
      (inl (mkError (js "Could not find channel with ID '"
         ++ js "undefined" ++ js "' or it is not a text channel.")), bot, [])
  | inr (Some channel) =>
      if negb (isTextBased channel) then
        (inl (mkError (js "Could not find channel with ID '"
           ++ js "undefined" ++ js "' or it is not a text channel.")),
         bot, [])
      else
        match listReply a with
        | Some e => (inl e, bot, [])
        | None =>
            match sort newestFirst
                    (filter (isBotMessage (user_id a))
                       (messages_fetch 10 channel)) with
            | message :: _ =>
                (inr message, bot,
                 [Log (js "Found existing message with ID '"
                         ++ Message.id message ++ js "'")])
            | [] =>
                match buildMessage (today a) bot with
                | (inl e, _, _) => (inl e, bot, [])
                | (inr payload, _, _) =>
                    match sendReply a with
                    | inl e => (inl e, bot, [Send payload])
                    | inr message =>
                        (inr message, bot,
                         [Send payload;
                          Log (js "Sent new message with ID '"
                                 ++ Message.id message ++ js "'")])
                    end
                end
            end
        end
  end.
Proof.
  unfold getOrSendMessage, bind, await, log, emit.
  destruct (channelReply a) as [e|[channel|]]; cbn; try reflexivity.
  destruct (isTextBased channel); cbn; [|reflexivity].
  destruct (listReply a) as [e|]; cbn; [reflexivity|].
  destruct (filter _ _) as [|first others] eqn:Ef.
  - change (sort newestFirst []) with (@nil Message.t); cbn.
    destruct (buildMessage_shape (today a) bot) as [r ->].
    destruct r as [e|payload]; cbn; [reflexivity|].
    destruct (sendReply a); cbn; reflexivity.
  - pose proof (sort_nonempty newestFirst first others) as Hs.
    destruct (sort newestFirst (first :: others)) as [|message rest];
      [contradiction|].
    cbn [List.length]; rewrite Nat2Z.inj_succ.
    destruct (Z.ltb_spec 0 (Z.succ (Z.of_nat (List.length others))));
      [reflexivity | lia].
Qed.

Lemma getOrSendMessage_shape (a : Acquire) (bot : OnlineBot) :
  exists r t, getOrSendMessage a bot = (r, bot, t).
Proof.
  rewrite getOrSendMessage_run.
  repeat match goal with
  | |- context [match ?x with _ => _ end] => destruct x
  end; eauto.
Qed.

Lemma onReady_run (a : Acquire) (cycles : list Cycle) (bot : OnlineBot) :
  onReady a cycles bot =
  match getOrSendMessage a bot with
  | (inl e, _, t) => (inl e, bot, greeting a bot ++ t)
  | (inr message, _, t) =>
      (inr tt,
       fst (pollLoop cycles (set_messageRef (Some message) bot)),
       greeting a bot ++ t
       ++ snd (pollLoop cycles (set_messageRef (Some message) bot)))
  end.
Proof.
  unfold onReady, bind, log, emit, this, update; cbn.
  destruct (getOrSendMessage_shape a bot) as (r & t & ->).
  destruct r as [e|message]; cbn; [trace_eq|].
  destruct (pollLoop cycles _) as [b tl]; cbn; trace_eq.
Qed.

Lemma poll_validated (pool : Cycle -> Prop) (c : Cycle) (bot : OnlineBot) :
  pool c -> validated pool bot -> validated pool (fst (poll c bot)).
Proof.
  intros Hp Hv.
  destruct (pollBody_outcome c bot) as (newCount & bot1 & pre & F & O).
  assert (Hc1 : cachedCount bot1 = cachedCount bot).
  { destruct (fetched_worlds _ _ _ _ _ F) as (w & tw & _ & ->).
    destruct (truthy _); reflexivity. }
  assert (Hnew : changed newCount (cachedCount bot) = true ->
                 validated pool (set_cachedCount newCount bot1)).
  { intros Hc; unfold validated; cbn.
    destruct newCount as [n|]; [|discriminate Hc].
    destruct (fetched_valid _ _ _ _ _ F n eq_refl) as (Hn & el & E1 & E2).
    split; [intros ->; discriminate Hn | eauto]. }
  assert (Hold : validated pool bot1)
    by (unfold validated; rewrite Hc1; exact Hv).
  rewrite poll_run.
  inversion O; try (destruct (running bot1)); cbn [fst]; auto;
    try (destruct (running _)); auto.
Qed.

Lemma pollLoop_validated (pool : Cycle -> Prop) (cycles : list Cycle) :
  (forall c, In c cycles -> pool c) ->
  forall bot, validated pool bot ->
              validated pool (fst (pollLoop cycles bot)).
Proof.
  induction cycles as [|c rest IH]; intros Hp bot Hv; [exact Hv|].
  cbn [pollLoop].
  pose proof (poll_validated pool c bot (Hp c (or_introl eq_refl)) Hv) as Hs.
  destruct (poll c bot) as [b1 t1]; cbn [fst] in Hs.
  destruct (existsb isSetTimeout t1); [|exact Hs].
  assert (Hr : validated pool (fst (pollLoop rest b1)))
    by (apply IH; [intros c' Hc'; apply Hp; right; exact Hc' | exact Hs]).
  destruct (pollLoop rest b1); exact Hr.
Qed.

(** C8, as the code has it.  Throughout the life of the process
    [cachedCount] is absent or a value that passed the numeric validation:
    a number other than NaN that [parseInt] produced from the text fetched
    in one of the cycles run so far.  (It is an integer unless the digits
    overflow a double, when it is an infinity.) *)
Theorem C8_cachedCount_validated
  (cfg : Config.t) (a : Acquire) (cycles : list Cycle) :
  match cachedCount (fst (lifetime cfg a cycles)) with
  | None => True
  | Some n =>
      Number_isNaN n = false
      /\ (Number_isInteger n = true \/ exists s, n = Infinity s)
      /\ exists c el, In c cycles /\ totalPage c = inr el
                      /\ n = parseInt (trim (text el))
  end.
Proof.
  assert (V : validated (fun c => In c cycles)
                        (fst (lifetime cfg a cycles))).
  { unfold lifetime; rewrite onReady_run.
    destruct (getOrSendMessage_shape a (run (constructor cfg)))
      as (r & t & ->).
    destruct r as [e|message]; cbn [fst]; [exact I|].
    apply pollLoop_validated; [auto | exact I]. }
  unfold validated in V.
  destruct (cachedCount _) as [n|]; [|exact I].
  destruct V as (Hn & Hex).
  destruct n as [|s|z]; [contradiction| |]; repeat split; eauto.
Qed.

End Lifetime.

(* ================================================================== *)
(** ** The renderer *)

Section Renderer.
Context `{Host}.

Lemma getOwn_assign_same (o : object) (k : jsstring) (v : jsval) :
  getOwn (assign o k v) k = Some v.
Proof.
  induction o as [|[k' v'] o IH]; simpl.
  - rewrite jsstring_eqb_refl; reflexivity.
  - destruct (jsstring_eqb k' k) eqn:E; simpl; rewrite E; auto.
Qed.

Lemma getOwn_assign_other (o : object) (k k0 : jsstring) (v : jsval) :
  k0 <> k -> getOwn (assign o k v) k0 = getOwn o k0.
Proof.
  intros D; induction o as [|[k' v'] o IH]; simpl.
  - rewrite jsstring_eqb_neq; auto.
  - destruct (jsstring_eqb k' k) eqn:E; simpl.
    + apply jsstring_eqb_eq in E; subst k'.
      rewrite jsstring_eqb_neq; auto.
    + destruct (jsstring_eqb k' k0); auto.
  Qed.

Lemma getOwn_setProp_other (o : object) (k k0 : jsstring) (v : jsval) :
  k0 <> k -> getOwn (setProp o k v) k0 = getOwn o k0.
Proof.
  intros D; unfold setProp.
  destruct (jsstring_eqb k (js "__proto__")); auto.
  apply getOwn_assign_other; exact D.
Qed.

Lemma fields_not_proto : jsstring_eqb (js "fields") (js "__proto__") = false.
Proof. reflexivity. Qed.

Lemma applyKeys_merged (tpl : object) :
  keysDistinct tpl = true ->
  forall e g,
    getOwn e (js "fields") = Some (JArr g) ->
    exists e',
      (forall s, applyKeys e tpl s = (inr e', s, []))
      /\ forall k, getOwn e' k = mergedAt e g tpl k.
Proof.
  induction tpl as [|[k1 v1] tpl IH]; intros Hd e g Hf.
  - exists e; split; [reflexivity|].
    intros k; unfold mergedAt; simpl.
    destruct (jsstring_eqb k _); reflexivity.
  - simpl in Hd; apply andb_true_iff in Hd; destruct Hd as [Hfresh Hd].
    apply negb_true_iff in Hfresh; unfold hasOwn in Hfresh.
    destruct (getOwn tpl k1) eqn:Efresh; [discriminate|]; clear Hfresh.
    destruct (jsstring_eqb k1 (js "fields")) eqn:Ek1.
    + (* the fields of the template are appended *)
      apply jsstring_eqb_eq in Ek1; subst k1.
      assert (Hf1 : getOwn (setProp e (js "fields") (JArr (concat g v1)))
                      (js "fields") = Some (JArr (concat g v1))).
      { unfold setProp; rewrite fields_not_proto.
        apply getOwn_assign_same. }
      destruct (IH Hd _ _ Hf1) as (e' & Hrun & Hget).
      exists e'; split.
      * intros s; cbn [applyKeys]; unfold bind, applyKey.
        rewrite jsstring_eqb_refl, Hf; cbn; rewrite Hrun; reflexivity.
      * intros k; rewrite Hget; unfold mergedAt.
        destruct (jsstring_eqb k (js "__proto__")) eqn:Ep.
        -- apply getOwn_setProp_other.
           intros ->; rewrite fields_not_proto in Ep; discriminate.
        -- cbn [getOwn].
           destruct (jsstring_eqb (js "fields") k) eqn:Ek.
           ++ apply jsstring_eqb_eq in Ek; subst k.
              rewrite Efresh, Hf1, jsstring_eqb_refl; reflexivity.
           ++ assert (Dk : k <> js "fields")
                by (intros ->; rewrite jsstring_eqb_refl in Ek; discriminate).
              rewrite (getOwn_setProp_other _ _ _ _ Dk).
              rewrite (jsstring_eqb_neq _ _ Dk).
              destruct (getOwn tpl k); reflexivity.
    + (* any other key overwrites *)
      assert (D1 : js "fields" <> k1)
        by (intros <-; rewrite jsstring_eqb_refl in Ek1; discriminate).
      assert (Hf1 : getOwn (setProp e k1 v1) (js "fields") = Some (JArr g))
        by (rewrite (getOwn_setProp_other _ _ _ _ D1); exact Hf).
      destruct (IH Hd _ _ Hf1) as (e' & Hrun & Hget).
      exists e'; split.
      * intros s; cbn [applyKeys]; unfold bind, applyKey.
        rewrite Ek1; cbn; rewrite Hrun; reflexivity.
      * intros k; rewrite Hget; unfold mergedAt.
        destruct (jsstring_eqb k (js "__proto__")) eqn:Ep.
        -- unfold setProp.
           destruct (jsstring_eqb k1 (js "__proto__")) eqn:Ep1; auto.
           apply getOwn_assign_other.
           intros ->; rewrite Ep in Ep1; discriminate.
        -- cbn [getOwn].
           destruct (jsstring_eqb k1 k) eqn:Ek.
           ++ apply jsstring_eqb_eq in Ek; subst k.
              rewrite Efresh, Ek1.
              unfold setProp; rewrite Ep; apply getOwn_assign_same.
           ++ assert (Dk : k <> k1)
                by (intros ->; rewrite jsstring_eqb_refl in Ek; discriminate).
              rewrite (getOwn_setProp_other _ _ _ _ Dk).
              reflexivity.
Qed.

Lemma buildMessage_merged (ts : jsstring) (bot : OnlineBot) ws tpl :
  worldsCount bot = Some ws ->
  Config.embed (config bot) = Some tpl ->
  keysDistinct tpl = true ->
  hasOwn tpl (js "hasOwnProperty") = false ->
  exists embed,
    buildMessage ts bot
    = (inr {| Payload.embeds := [embed]; Payload.content := js "" |},
       bot, [])
    /\ forall k,
         getOwn embed k
         = mergedAt (defaultEmbed bot ts (mapi worldField 0 ws))
             (mapi worldField 0 ws) tpl k.
Proof.
  intros Hw Ht Hd Hh.
  destruct (applyKeys_merged tpl Hd
              (defaultEmbed bot ts (mapi worldField 0 ws))
              (mapi worldField 0 ws) eq_refl) as (e' & Hrun & Hget).
  exists e'; split; [|exact Hget].
  unfold buildMessage, bind, this; cbn; rewrite Hw, Ht; cbn.
  unfold applyConfigEmbed.
  destruct tpl as [|kv tpl].
  - cbn in Hrun; specialize (Hrun bot); injection Hrun as <-; reflexivity.
  - rewrite Hh, Hrun; reflexivity.
Qed.

(** C6.  A config template with well-formed keys is merged over the
    default embed: every key of the template other than [fields] ends up
    with the template's value, keys the template does not have keep
    their default, and the entries of the template's [fields] follow the
    generated per-segment fields.  For the template
    [{title: x, fields: [f]}] the title is [x] and the fields are the
    generated ones followed by [f]. *)
Theorem C6_template_merge (ts : jsstring) (bot : OnlineBot)
  (ws : list number) (tpl : object) :
  worldsCount bot = Some ws ->
  Config.embed (config bot) = Some tpl ->
  keysDistinct tpl = true ->
  hasOwn tpl (js "hasOwnProperty") = false ->
  let generated := mapi worldField 0 ws in
  exists embed,
    buildMessage ts bot
    = (inr {| Payload.embeds := [embed]; Payload.content := js "" |},
       bot, [])
    /\ (forall k v, getOwn tpl k = Some v ->
          k <> js "fields" -> k <> js "__proto__" ->
          getOwn embed k = Some v)
    /\ (forall k, getOwn tpl k = None ->
          getOwn embed k = getOwn (defaultEmbed bot ts generated) k)
    /\ (forall fs, getOwn tpl (js "fields") = Some (JArr fs) ->
          getOwn embed (js "fields") = Some (JArr (generated ++ fs)))
    /\ (forall x f,
          tpl = [(js "title", JStr x); (js "fields", JArr [f])] ->
          getOwn embed (js "title") = Some (JStr x)
          /\ getOwn embed (js "fields") = Some (JArr (generated ++ [f]))).
Proof.
  intros Hw Ht Hd Hh generated.
  destruct (buildMessage_merged ts bot ws tpl Hw Ht Hd Hh)
    as (embed & Hrun & Hget).
  fold generated in Hget.
  exists embed; split; [exact Hrun|].
  split; [|split; [|split]].
  - intros k v Hk Dk Dp; rewrite Hget; unfold mergedAt.
    rewrite (jsstring_eqb_neq _ _ Dp), Hk, (jsstring_eqb_neq _ _ Dk).
    reflexivity.
  - intros k Hk; rewrite Hget; unfold mergedAt; rewrite Hk.
    destruct (jsstring_eqb k _); reflexivity.
  - intros fs Hk; rewrite Hget; unfold mergedAt.
    rewrite fields_not_proto, Hk, jsstring_eqb_refl; reflexivity.
  - intros x f ->; rewrite !Hget; split; reflexivity.
Qed.

Lemma buildMessage_payload (ts : jsstring) (bot bot' : OnlineBot) p t :
  buildMessage ts bot = (inr p, bot', t) ->
  exists embed,
    p = {| Payload.embeds := [embed]; Payload.content := js "" |}.
Proof.
  unfold buildMessage, bind, this; cbn.
  destruct (worldsCount bot) as [w|]; cbn; [|discriminate].
  destruct (Config.embed (config bot)) as [tpl|]; cbn.
  - unfold applyConfigEmbed.
    destruct tpl as [|kv tpl].
    + cbn; intros [= <- _ _]; eauto.
    + destruct (hasOwn _ _); [cbn; discriminate|].
      match goal with
      | |- context [applyKeys ?e ?l bot] =>
          destruct (applyKeys_shape l e) as [r Hr]; rewrite Hr
      end.
      destruct r; [discriminate|].
      intros [= <- _ _]; eauto.
  - intros [= <- _ _]; eauto.
Qed.

End Renderer.

(* ================================================================== *)
(** ** The message synchronizer *)

Section Synchronizer.
Context `{Host}.

Lemma logLine_delivers_nothing (e : event) :
  isLogLine e = true -> delivered e = None.
Proof. destruct e; simpl; intros E; try discriminate; reflexivity. Qed.

Lemma poll_delivers (c : Cycle) (bot : OnlineBot) (e : event) p :
  In e (snd (poll c bot)) -> delivered e = Some p -> oneEmbed p.
Proof.
  intros Hin Hp.
  destruct (pollBody_outcome c bot) as (newCount & bot1 & pre & F & O).
  pose proof (fetched_log _ _ _ _ _ F) as Q.
  assert (Pre : In e pre -> oneEmbed p).
  { intros Hpre.
    rewrite (logLine_delivers_nothing e
               (logLines_not_delivery pre e Q Hpre)) in Hp.
    discriminate Hp. }
  assert (Tail : forall e', delivered e' = None -> In e [e'] -> oneEmbed p).
  { intros e' He' [->|[]]; rewrite He' in Hp; discriminate Hp. }
  rewrite poll_run in Hin.
  inversion O as [Hc Eo | Hc Hm Eo | m' e0 Hc Hm Hb Eo
                 | m' p' e0 Hc Hm Hb Hr Eo | m' p' Hc Hm Hb Hr Eo];
    rewrite <- Eo in Hin; try (destruct (running _)); cbn [snd] in Hin;
    repeat (apply in_app_or in Hin; destruct Hin as [Hin|Hin]); auto;
    try (eapply Tail; [|exact Hin]; reflexivity).
  - destruct Hin as [<-|[]]; injection Hp as <-.
    eapply buildMessage_payload; exact Hb.
  - destruct Hin as [<-|[<-|[]]]; [|discriminate Hp].
    injection Hp as <-; eapply buildMessage_payload; exact Hb.
  - destruct Hin as [<-|[<-|[]]]; [|discriminate Hp].
    injection Hp as <-; eapply buildMessage_payload; exact Hb.
Qed.

Lemma pollLoop_delivers (cycles : list Cycle) :
  forall (bot : OnlineBot) (e : event) p,
    In e (snd (pollLoop cycles bot)) -> delivered e = Some p -> oneEmbed p.
Proof.
  induction cycles as [|c rest IH]; intros bot e p Hin Hp; [destruct Hin|].
  cbn [pollLoop] in Hin.
  pose proof (poll_delivers c bot e p) as Hs.
  destruct (poll c bot) as [b1 t1]; cbn [snd] in Hs.
  destruct (existsb isSetTimeout t1); [|auto].
  pose proof (IH b1 e p) as Hr.
  destruct (pollLoop rest b1) as [b2 t2]; cbn [snd] in Hin, Hr.
  apply in_app_or in Hin; destruct Hin; auto.
Qed.

Lemma getOrSendMessage_delivers (a : Acquire) (bot : OnlineBot) e p :
  In e (snd (getOrSendMessage a bot)) -> delivered e = Some p -> oneEmbed p.
Proof.
  rewrite getOrSendMessage_run; intros Hin Hp.
  destruct (channelReply a) as [e0|[channel|]]; try (destruct Hin).
  destruct (isTextBased channel); cbn [negb] in Hin; [|destruct Hin].
  destruct (listReply a); [destruct Hin|].
  destruct (sort _ _) as [|message rest].
  - destruct (buildMessage (today a) bot) as [[[e0|payload] b] t] eqn:Eb;
      [destruct Hin|].
    apply buildMessage_payload in Eb.
    destruct (sendReply a); cbn [snd] in Hin.
    + destruct Hin as [<-|[]]; injection Hp as <-; exact Eb.
    + destruct Hin as [<-|[<-|[]]]; [|discriminate Hp].
      injection Hp as <-; exact Eb.
  - destruct Hin as [<-|[]]; discriminate Hp.
Qed.

Lemma isBotMessage_spec (self : jsstring) (msg : Message.t) :
  isBotMessage self msg = true
  <-> Message.author_id msg = self /\ Message.embeds msg <> [].
Proof.
  unfold isBotMessage; rewrite andb_true_iff, jsstring_eqb_eq, Z.ltb_lt.
  destruct (Message.embeds msg); simpl; split; intros [E1 E2]; split; auto;
    try lia; try discriminate; congruence.
Qed.

(** C10.  Whatever [buildMessage] returns has exactly one embed and empty
    content; every message the bot sends or edits in its life carries such
    a payload; and a message of the bot's own with the embeds of such a
    payload passes the filter of the message acquisition. *)
Theorem C10_every_message_has_one_embed :
  (forall ts bot p bot' t,
     buildMessage ts bot = (inr p, bot', t) ->
     List.length (Payload.embeds p) = 1%nat /\ Payload.content p = js "")
  /\ (forall cfg a cycles e p,
        In e (snd (lifetime cfg a cycles)) -> delivered e = Some p ->
        List.length (Payload.embeds p) = 1%nat /\ Payload.content p = js "")
  /\ (forall self msg p,
        List.length (Payload.embeds p) = 1%nat ->
        Message.author_id msg = self ->
        List.length (Message.embeds msg) = List.length (Payload.embeds p) ->
        isBotMessage self msg = true).
Proof.
  assert (Shape : forall p, oneEmbed p ->
            List.length (Payload.embeds p) = 1%nat
            /\ Payload.content p = js "")
    by (intros p [embed ->]; split; reflexivity).
  split; [|split].
  - intros ts bot p bot' t Eb; apply Shape.
    eapply buildMessage_payload; exact Eb.
  - intros cfg a cycles e p Hin Hp; apply Shape.
    unfold lifetime in Hin; rewrite onReady_run in Hin.
    pose proof (getOrSendMessage_delivers a (run (constructor cfg)) e p)
      as Hacq.
    destruct (getOrSendMessage a (run (constructor cfg)))
      as [[[e0|message] b] t]; cbn [snd] in Hin, Hacq.
    + apply in_app_or in Hin; destruct Hin as [Hin|Hin]; [|auto].
      destruct Hin as [<-|[<-|[]]]; discriminate Hp.
    + apply in_app_or in Hin; destruct Hin as [Hin|Hin].
      * destruct Hin as [<-|[<-|[]]]; discriminate Hp.
      * apply in_app_or in Hin; destruct Hin as [Hin|Hin]; [auto|].
        eapply pollLoop_delivers; eauto.
  - intros self msg p Hone Ha Hlen; apply isBotMessage_spec.
    split; [exact Ha|].
    rewrite Hone in Hlen; intros E; rewrite E in Hlen; discriminate.
Qed.

Lemma insert_In (x a : Message.t) (l : list Message.t) :
  In x (insert newestFirst a l) <-> x = a \/ In x l.
Proof.
  induction l as [|y l IH]; simpl.
  - intuition.
  - destruct (newestFirst a y <=? 0); simpl; [intuition|].
    rewrite IH; intuition.
Qed.

Lemma sort_In (x : Message.t) (l : list Message.t) :
  In x (sort newestFirst l) <-> In x l.
Proof.
  unfold sort; induction l as [|a l IH]; simpl; [reflexivity|].
  rewrite insert_In, IH; intuition.
Qed.

Lemma insert_head (a : Message.t) (l : list Message.t) :
  (forall m rest, l = m :: rest -> forall x, In x l -> notOlder m x) ->
  forall m rest, insert newestFirst a l = m :: rest ->
                 forall x, In x (a :: l) -> notOlder m x.
Proof.
  intros Hl m rest E x Hx.
  destruct l as [|y l]; simpl in E.
  - injection E as <- <-; destruct Hx as [<-|[]]; unfold notOlder; lia.
  - specialize (Hl y l eq_refl).
    unfold newestFirst in E.
    destruct (Z.leb_spec (Message.createdTimestamp y
                          - Message.createdTimestamp a) 0) as [Le|Gt];
      injection E as <- <-.
    + destruct Hx as [<-|Hx]; [unfold notOlder; lia|].
      specialize (Hl x Hx); unfold notOlder in *; lia.
    + destruct Hx as [<-|Hx]; [unfold notOlder; lia|].
      exact (Hl x Hx).
Qed.

(** The first message after sorting is a newest one. *)
Lemma sort_head (l : list Message.t) :
  forall m rest, sort newestFirst l = m :: rest ->
                 forall x, In x l -> notOlder m x.
Proof.
  unfold sort; induction l as [|a l IH]; intros m rest E x Hx.
  - destruct Hx.
  - simpl in E.
    refine (insert_head a (fold_right (insert newestFirst) [] l) _
              m rest E x _).
    + intros m' rest' E' x' Hx'; apply (IH m' rest' E').
      apply sort_In; exact Hx'.
    + destruct Hx as [<-|Hx]; [left; reflexivity|].
      right; apply sort_In; exact Hx.
Qed.

(** C5.  In a text channel whose recent messages can be listed,
    acquisition looks at the 10 most recent messages only and keeps those
    the bot wrote that have an embed.  If there are any, it returns one of
    them that no other is newer than; if there are none, it sends the
    message built from the bot's current state and returns the message
    the platform created. *)
Theorem C5_acquisition (a : Acquire) (bot : OnlineBot) (channel : Channel) :
  channelReply a = inr (Some channel) ->
  isTextBased channel = true ->
  listReply a = None ->
  let eligible (m : Message.t) :=
    In m (firstn 10 (history channel))
    /\ Message.author_id m = user_id a
    /\ Message.embeds m <> [] in
  ((exists m, eligible m) ->
     exists message,
       getOrSendMessage a bot
       = (inr message, bot,
          [Log (js "Found existing message with ID '"
                  ++ Message.id message ++ js "'")])
       /\ eligible message
       /\ forall other, eligible other ->
            Message.createdTimestamp other
            <= Message.createdTimestamp message)
  /\ ((forall m, ~ eligible m) ->
      forall payload sent,
        buildMessage (today a) bot = (inr payload, bot, []) ->
        sendReply a = inr sent ->
        getOrSendMessage a bot
        = (inr sent, bot,
           [Send payload;
            Log (js "Sent new message with ID '"
                   ++ Message.id sent ++ js "'")])).
Proof.
  intros Hch Htext Hlist eligible.
  assert (Hel : forall m,
            eligible m
            <-> In m (filter (isBotMessage (user_id a))
                        (messages_fetch 10 channel))).
  { intros m; unfold eligible, messages_fetch.
    rewrite filter_In, isBotMessage_spec; tauto. }
  rewrite getOrSendMessage_run, Hch, Htext, Hlist; cbn [negb].
  destruct (sort newestFirst _) as [|message rest] eqn:Es; split.
  - intros [m Hm]; exfalso.
    apply Hel in Hm; apply sort_In in Hm; rewrite Es in Hm; exact Hm.
  - intros _ payload sent -> ->; reflexivity.
  - intros _; exists message; split; [reflexivity|].
    split.
    + apply Hel, sort_In; rewrite Es; left; reflexivity.
    + intros other Ho; apply Hel in Ho.
      exact (sort_head _ message rest Es other Ho).
  - intros Hnone; exfalso; apply (Hnone message).
    apply Hel, sort_In; rewrite Es; left; reflexivity.
Qed.

End Synchronizer.

(* ================================================================== *)
(** ** The statements on the sample inputs *)

(** C2: ["42abc"] is not a valid integer, and still the extraction returns
    42 and reports nothing. *)
Lemma C2_counterexample :
  validInteger (trim (js "42abc")) = None
  /\ fetchTotalMemberCount (inr (page "42abc" [])) sampleBot
     = (inr (Some (Fin 42)), sampleBot, []).
Proof. split; vm_compute; reflexivity. Qed.

Lemma C2_witness :
  fetchTotalMemberCount (inr (page "7" [])) sampleBot
  = (inr (Some (Fin 7)), sampleBot, [])
  /\ fetchTotalMemberCount (inr (page "  -17 " [])) sampleBot
     = (inr (Some (Fin (-17))), sampleBot, [])
  /\ fetchTotalMemberCount (inr (page " 42 players" [])) sampleBot
     = (inr (Some (toNumber (decimalValue (js "42")))), sampleBot, [])
  /\ fetchTotalMemberCount (inr (page "  " [])) sampleBot
     = (inr None, sampleBot,
        [LogError (js "Error fetching member count: " ++
           (js "Could not parse member count from the site. Expected a number but got '"
              ++ trim (text (page "  " [])) ++ js "'"))]).
Proof.
  split; [|split; [|split]].
  - apply (proj1 (C2_extractAggregate (page "7" []) sampleBot) 7);
      reflexivity.
  - apply (proj1 (proj2
             (C2_extractAggregate (page "  -17 " []) sampleBot))
             (js "  ") (js "-17") (js " ") (-17));
      reflexivity.
  - apply (proj1 (proj2 (proj2
             (C2_extractAggregate (page " 42 players" []) sampleBot)))
             (js "42") (js " players"));
      [reflexivity | vm_compute; auto | vm_compute; reflexivity].
  - apply (proj2 (proj2 (proj2
             (C2_extractAggregate (page "  " []) sampleBot))));
      vm_compute; reflexivity.
Defined.

(** C7: the entry that does not parse is first in one list and second in
    the other; both calls return [undefined], not an error, and log the
    same line. *)
Lemma C7_counterexample :
  @fetchWorldsMemberCount node (inr (page "" ["x"]%string)) sampleBot
  = (inr None, sampleBot,
     [LogError (js "Error fetching member count: Could not parse worlds member count from the site. Expected a number but got 'x'")])
  /\ @fetchWorldsMemberCount node (inr (page "" ["1"; "x"]%string)) sampleBot
     = @fetchWorldsMemberCount node (inr (page "" ["x"]%string)) sampleBot.
Proof. split; vm_compute; reflexivity. Qed.

Lemma C7_witness :
  (exists counts,
     @fetchWorldsMemberCount node (inr (page "" ["7"; " 8 "]%string)) sampleBot
     = (inr (Some counts), sampleBot, [])
     /\ List.length counts = 2%nat
     /\ List.map Some counts = [Some (Fin 7); Some (Fin 8)])
  /\ @fetchWorldsMemberCount node (inr (page "" ["7"; "x"; "9"]%string))
       sampleBot
     = (inr None, sampleBot,
        [LogError (js "Error fetching member count: " ++
           (js "Could not parse worlds member count from the site. Expected a number but got '"
              ++ trim (js "x") ++ js "'"))]).
Proof.
  split.
  - apply (proj1 (@C7_extractSegments node
                    (page "" ["7"; " 8 "]%string) sampleBot)).
    repeat constructor; discriminate.
  - apply (proj2 (@C7_extractSegments node
                    (page "" ["7"; "x"; "9"]%string) sampleBot)
             [textNode "7"] (textNode "x") [textNode "9"] (js "x"));
      [reflexivity | repeat constructor; discriminate
      | reflexivity | reflexivity].
Defined.

(** C1: the request for the count fails, and the loop goes on. *)
Lemma C1_counterexample :
  totalPage failedFetchCycle = inl (mkError (js "fetch failed"))
  /\ running (fst (@poll node failedFetchCycle sampleBot)) = true
  /\ existsb isSetTimeout (snd (@poll node failedFetchCycle sampleBot))
     = true.
Proof. repeat split; vm_compute; reflexivity. Qed.

Lemma C1_witness :
  running (fst (@poll node rejectedCycle sampleBot)) = false
  /\ existsb isSetTimeout (snd (@poll node rejectedCycle sampleBot)) = false
  /\ @pollLoop node [rejectedCycle; goodCycle "44" []] sampleBot
     = @poll node rejectedCycle sampleBot.
Proof.
  pose proof (@C1_error_at_the_cycle_boundary node rejectedCycle sampleBot)
    as (Caught & Rejected & _).
  edestruct Rejected as (bot1 & t & E).
  - cbv; repeat (first [left; reflexivity | right]).
  - reflexivity.
  - destruct (Caught _ _ _ E) as (_ & R & T & L).
    split; [exact R|]. split; [exact T|]. apply L.
Defined.

Lemma C3_witness :
  (filter isEdit
     (snd (@poll node (goodCycle "42" ["5"; "6"]%string) cachedBot)) = []
   /\ cachedCount
        (fst (@poll node (goodCycle "42" ["5"; "6"]%string) cachedBot))
      = Some (Fin 42))
  /\ (exists m p,
        messageRef cachedBot = Some m
        /\ filter isEdit
             (snd (@poll node (goodCycle "17" ["1"; "2"]%string) cachedBot))
           = [Edit m p]
        /\ cachedCount
             (fst (@poll node (goodCycle "17" ["1"; "2"]%string) cachedBot))
           = Some (Fin 17)).
Proof.
  split.
  - edestruct (@C3_change_gating node (goodCycle "42" ["5"; "6"]%string)
                 cachedBot) as [Same _];
      [reflexivity | reflexivity |].
    exact (Same eq_refl).
  - edestruct (@C3_change_gating node (goodCycle "17" ["1"; "2"]%string)
                 cachedBot) as [_ Differs];
      [reflexivity | reflexivity |].
    destruct Differs as (m & p & Hm & _ & He & Hc); [discriminate|].
    exists m, p; repeat split; assumption.
Defined.

(** C4: the second segment does not parse; the cycle replaces the cached
    sequence by [undefined], the loop goes on, and the next rendering
    throws. *)
Lemma C4_failed_segment_fetch_leaves_undefined :
  worldsCount cachedBot = Some [Fin 1; Fin 2]
  /\ worldsCount (fst (@poll node badSegmentCycle cachedBot)) = None
  /\ running (fst (@poll node badSegmentCycle cachedBot)) = true
  /\ fst (fst (@buildMessage node (js "2024-01-01T00:00:30.000Z")
                 (fst (@poll node badSegmentCycle cachedBot))))
     = inl (@TypeError node (ReadOfUndefined "map")).
Proof. repeat split; vm_compute; reflexivity. Qed.

Lemma C5_witness :
  (let eligible (m : Message.t) :=
     In m (firstn 10 (history busyChannel))
     /\ Message.author_id m = js "bot" /\ Message.embeds m <> [] in
   exists message,
     @getOrSendMessage node (acquireIn busyChannel)
       (run (constructor sampleConfig))
     = (inr message, run (constructor sampleConfig),
        [Log (js "Found existing message with ID '"
                ++ Message.id message ++ js "'")])
     /\ eligible message
     /\ forall other, eligible other ->
          Message.createdTimestamp other <= Message.createdTimestamp message)
  /\ (exists payload,
        @getOrSendMessage node (acquireIn quietChannel)
          (run (constructor sampleConfig))
        = (inr (messageAt "12" "bot" [JNull] 1100),
           run (constructor sampleConfig),
           [Send payload;
            Log (js "Sent new message with ID '" ++ js "12" ++ js "'")])).
Proof.
  split.
  - apply (proj1 (@C5_acquisition node (acquireIn busyChannel)
                    (run (constructor sampleConfig)) busyChannel
                    eq_refl eq_refl eq_refl)).
    exists (messageAt "9" "bot" [JNull] 900).
    split; [simpl; tauto | split; [reflexivity | discriminate]].
  - eexists.
    apply (proj2 (@C5_acquisition node (acquireIn quietChannel)
                    (run (constructor sampleConfig)) quietChannel
                    eq_refl eq_refl eq_refl)).
    + intros m (Hin & Ha & He).
      destruct Hin as [<-|[<-|[]]]; [discriminate Ha | apply He; reflexivity].
    + reflexivity.
    + reflexivity.
Defined.

Lemma C6_witness :
  exists embed,
    @buildMessage node (js "2024-01-01T00:00:00.000Z") cachedBot
    = (inr {| Payload.embeds := [embed]; Payload.content := js "" |},
       cachedBot, [])
    /\ getOwn embed (js "title") = Some (JStr (js "X"))
    /\ getOwn embed (js "fields")
       = Some (JArr (mapi (@worldField node) 0 [Fin 1; Fin 2]
                       ++ [JStr (js "f")])).
Proof.
  destruct (@C6_template_merge node (js "2024-01-01T00:00:00.000Z")
              cachedBot [Fin 1; Fin 2]
              [(js "title", JStr (js "X")); (js "fields", JArr [JStr (js "f")])]
              eq_refl eq_refl eq_refl eq_refl)
    as (embed & E & _ & _ & _ & Particular).
  exists embed; split; [exact E|].
  exact (Particular (js "X") (JStr (js "f")) eq_refl).
Defined.

(** C8: a count of 309 digits is cached as [Infinity], which is not an
    integer. *)
Lemma C8_counterexample :
  cachedCount
    (fst (@lifetime node sampleConfig (acquireIn busyChannel) [hugeCycle]))
  = Some (Infinity false)
  /\ Number_isInteger (Infinity false) = false.
Proof. split; vm_compute; reflexivity. Qed.

Lemma C9_witness :
  cachedCount (fst (@poll node failedFetchCycle cachedBot)) = Some (Fin 42)
  /\ messageRef (fst (@poll node failedFetchCycle cachedBot))
     = Some sampleMessage
  /\ filter isEdit (snd (@poll node failedFetchCycle cachedBot)) = []
  /\ running (fst (@poll node failedFetchCycle cachedBot)) = true
  /\ existsb isSetTimeout (snd (@poll node failedFetchCycle cachedBot))
     = true.
Proof.
  destruct (@C9_aggregate_failure_is_contained node failedFetchCycle
              cachedBot (or_introl (ex_intro _ _ eq_refl)))
    as (_ & Hc & Hm & He & Hr & Hnext).
  destruct (Hnext eq_refl) as [Ht _].
  repeat split; assumption.
Defined.

Lemma C10_witness :
  (exists p,
     In (Send p)
        (snd (@lifetime node sampleConfig (acquireIn quietChannel)
                [goodCycle "42" ["1"; "2"]%string]))
     /\ List.length (Payload.embeds p) = 1%nat
     /\ Payload.content p = js "")
  /\ isBotMessage (js "bot") (messageAt "12" "bot" [JNull] 1100) = true.
Proof.
  pose proof (@C10_every_message_has_one_embed node)
    as (Built & Delivered & Passes).
  assert (Sent : exists p,
             In (Send p)
                (snd (@lifetime node sampleConfig (acquireIn quietChannel)
                        [goodCycle "42" ["1"; "2"]%string]))).
  { eexists; cbv; right; right; left; reflexivity. }
  destruct Sent as [p Hin].
  split.
  - exists p; split; [exact Hin|].
    exact (Delivered _ _ _ _ p Hin eq_refl).
  - apply (Passes (js "bot") (messageAt "12" "bot" [JNull] 1100) p);
      [exact (proj1 (Delivered _ _ _ _ p Hin eq_refl))
      | reflexivity
      | rewrite (proj1 (Delivered _ _ _ _ p Hin eq_refl)); reflexivity].
Defined.

(* ================================================================== *)
(** ** More about the poll cycle *)

Section CycleFacts.
Context `{Host}.

Lemma fetched_frame (c : Cycle) (bot : OnlineBot) newCount bot1 pre :
  fetches c bot newCount bot1 pre ->
  messageRef bot1 = messageRef bot /\ config bot1 = config bot
  /\ cachedCount bot1 = cachedCount bot /\ running bot1 = running bot.
Proof.
  intros F; destruct (fetched_worlds _ _ _ _ _ F) as (w & tw & _ & ->).
  destruct (truthy _); repeat split.
Qed.

(** Where a cycle can leave the bot: the fetches may replace the segment
    counts, the guard may replace the count, the catch may lower the
    flag; nothing else is written. *)
Lemma poll_state (c : Cycle) (bot : OnlineBot) :
  exists newCount bot1 pre,
    fetches c bot newCount bot1 pre
    /\ ((changed newCount (cachedCount bot) = false
         /\ fst (poll c bot) = bot1)
        \/ (changed newCount (cachedCount bot) = true
            /\ (fst (poll c bot) = set_cachedCount newCount bot1
                \/ fst (poll c bot)
                   = set_running false (set_cachedCount newCount bot1)))).
Proof.
  destruct (pollBody_outcome c bot) as (newCount & bot1 & pre & F & O).
  exists newCount, bot1, pre; split; [exact F|].
  rewrite poll_run.
  inversion O; try (destruct (running _)); cbn [fst]; auto.
Qed.

(** A cycle keeps the message reference and the configuration. *)
Lemma poll_frame (c : Cycle) (bot : OnlineBot) :
  messageRef (fst (poll c bot)) = messageRef bot
  /\ config (fst (poll c bot)) = config bot.
Proof.
  destruct (poll_state c bot) as (newCount & bot1 & pre & F & S).
  destruct (fetched_frame _ _ _ _ _ F) as (Hm & Hc & _ & _).
  destruct S as [[_ ->] | [_ [-> | ->]]]; cbn; auto.
Qed.

Lemma pollLoop_frame (cycles : list Cycle) :
  forall bot,
    messageRef (fst (pollLoop cycles bot)) = messageRef bot
    /\ config (fst (pollLoop cycles bot)) = config bot.
Proof.
  induction cycles as [|c rest IH]; intros bot; [split; reflexivity|].
  cbn [pollLoop].
  pose proof (poll_frame c bot) as [Hm Hc].
  destruct (poll c bot) as [b1 t1]; cbn [fst] in Hm, Hc.
  destruct (existsb isSetTimeout t1); [|split; assumption].
  pose proof (IH b1) as [Hm' Hc'].
  destruct (pollLoop rest b1); cbn [fst] in *; split; congruence.
Qed.

Lemma logLines_no_send (t : list event) :
  forallb isLogLine t = true -> filter isSend t = [].
Proof.
  induction t as [|e t IH]; simpl; auto.
  intros Hq; apply andb_true_iff in Hq; destruct Hq as [He Ht].
  destruct e; simpl in *; try discriminate; auto.
Qed.

(** X7.  In a poll cycle the bot never sends a new message, and it edits the
    tracked message at most once, whatever happens. *)
Theorem X7_poll_one_edit_no_send (c : Cycle) (bot : OnlineBot) :
  filter isSend (snd (poll c bot)) = []
  /\ (List.length (filter isEdit (snd (poll c bot))) <= 1)%nat.
Proof.
  destruct (pollBody_outcome c bot) as (newCount & bot1 & pre & F & O).
  pose proof (fetched_log _ _ _ _ _ F) as Q.
  pose proof (logLines_no_send pre Q) as Qs.
  pose proof (logLines_no_edit pre Q) as Qe.
  rewrite poll_run.
  inversion O; try (destruct (running _)); cbn [snd];
    rewrite <- ?app_assoc, ?filter_app, Qs, Qe; cbn; auto.
Qed.

(** X8.  The timer.  A cycle arms [setTimeout] at most once, as its last act,
    with a delay of [pollRate * 1000]; it arms it exactly when [running]
    is true at the end of the cycle, and a cycle never raises
    [running]. *)
Theorem X8_poll_timer (c : Cycle) (bot : OnlineBot) :
  exists t0,
    snd (poll c bot)
    = t0 ++ (if running (fst (poll c bot))
             then [SetTimeout (Config.pollRate (config bot) * 1000)]
             else [])
    /\ existsb isSetTimeout t0 = false
    /\ implb (running (fst (poll c bot))) (running bot) = true.
Proof.
  pose proof (pollBody_no_timer c bot) as T.
  destruct (pollBody_outcome c bot) as (newCount & bot1 & pre & F & O).
  destruct (fetched_frame _ _ _ _ _ F) as (_ & Hc & _ & Hr).
  rewrite poll_run.
  inversion O as [Hch Eo | Hch Hm Eo | m' e Hch Hm Hb Eo
                 | m' p' e Hch Hm Hb Hr' Eo | m' p' Hch Hm Hb Hr' Eo];
    rewrite <- Eo in T; cbn [snd] in T.
  - destruct (running bot1) eqn:Er; cbn [fst snd]; rewrite ?Er.
    + exists pre; rewrite Hc, <- Hr; auto.
    + exists pre; rewrite app_nil_r; auto.
  - eexists; cbn [fst snd running set_running]; rewrite app_nil_r.
    split; [reflexivity|]; split; [|reflexivity].
    rewrite existsb_app, T; reflexivity.
  - eexists; cbn [fst snd running set_running]; rewrite app_nil_r.
    split; [reflexivity|]; split; [|reflexivity].
    rewrite existsb_app, T; reflexivity.
  - eexists; cbn [fst snd running set_running]; rewrite app_nil_r.
    split; [reflexivity|]; split; [|reflexivity].
    rewrite existsb_app, T; reflexivity.
  - change (running (set_cachedCount newCount bot1)) with (running bot1).
    change (config (set_cachedCount newCount bot1)) with (config bot1).
    destruct (running bot1) eqn:Er; cbn [fst snd];
      change (running (set_cachedCount newCount bot1)) with (running bot1);
      rewrite ?Er.
    + eexists; rewrite Hc, <- Hr; auto.
    + eexists; rewrite app_nil_r; auto.
Qed.

(** X9.  With no segment selector (absent, or the empty string) a cycle does
    not look at the segment page and leaves [worldsCount] as it is. *)
Theorem X9_poll_segments_disabled (c c' : Cycle) (bot : OnlineBot) :
  truthy (Config.worldsCount (config bot)) = false ->
  totalPage c = totalPage c' ->
  editReply c = editReply c' ->
  now c = now c' ->
  poll c bot = poll c' bot
  /\ worldsCount (fst (poll c bot)) = worldsCount bot.
Proof.
  intros Hoff Et Ee En; split.
  - destruct (fetchTotal_shape (totalPage c)) as (r & t1 & E1 & _).
    destruct (fetchWorlds_shape (worldsPage c)) as (w & tw & E2 & _).
    destruct (fetchWorlds_shape (worldsPage c')) as (w' & tw' & E2' & _).
    rewrite !poll_run.
    rewrite (pollBody_run c bot r t1 w tw (E1 bot) (E2 bot)).
    rewrite Et in E1.
    rewrite (pollBody_run c' bot r t1 w' tw' (E1 bot) (E2' bot)).
    rewrite Hoff, Ee, En; reflexivity.
  - destruct (poll_state c bot) as (newCount & bot1 & pre & F & S).
    destruct (fetched_worlds _ _ _ _ _ F) as (w & tw & _ & E).
    rewrite Hoff in E; subst bot1.
    destruct S as [[_ ->] | [_ [-> | ->]]]; reflexivity.
Qed.

(** X10.  With a segment selector, every cycle stores what the segment fetch
    returned, whether or not the aggregate count changed. *)
Theorem X10_poll_segments_refreshed (c : Cycle) (bot : OnlineBot) w tw :
  truthy (Config.worldsCount (config bot)) = true ->
  fetchWorldsMemberCount (worldsPage c) bot = (inr w, bot, tw) ->
  worldsCount (fst (poll c bot)) = w.
Proof.
  intros Hon E.
  destruct (poll_state c bot) as (newCount & bot1 & pre & F & S).
  destruct (fetched_worlds _ _ _ _ _ F) as (w' & tw' & E' & Eb).
  rewrite E in E'; injection E' as <- _.
  rewrite Hon in Eb; subst bot1.
  destruct S as [[_ ->] | [_ [-> | ->]]]; reflexivity.
Qed.

Lemma unchanged_cached (n : number) (cached : option number) :
  changed (Some n) cached = false -> Number_isNaN n = false ->
  cached = Some n.
Proof.
  unfold changed; intros Hc Hn; rewrite Hn in Hc; cbn in Hc.
  destruct cached as [k|]; [|discriminate].
  apply negb_false_iff, number_eqb_eq in Hc; congruence.
Qed.

Lemma cached_after_fetch (c : Cycle) (bot : OnlineBot) n tq :
  fetchTotalMemberCount (totalPage c) bot = (inr (Some n), bot, tq) ->
  cachedCount (fst (poll c bot)) = Some n.
Proof.
  intros E.
  destruct (poll_state c bot) as (newCount & bot1 & pre & F & S).
  destruct (fetched_total _ _ _ _ _ F) as (t1 & E').
  rewrite E in E'; injection E' as <- _.
  destruct (fetched_valid _ _ _ _ _ F n eq_refl) as (Hn & _).
  destruct (fetched_frame _ _ _ _ _ F) as (_ & _ & Hc & _).
  destruct S as [[Hch ->] | [_ [-> | ->]]]; try reflexivity.
  rewrite Hc; apply unchanged_cached; assumption.
Qed.

(** X11.  The cache is written before the edit: after a cycle whose
    aggregate fetch returned [n], [cachedCount] is [n], also when
    rendering threw or the platform rejected the edit. *)
Theorem X11_poll_caches_fetched_count (c : Cycle) (bot : OnlineBot) n tq :
  fetchTotalMemberCount (totalPage c) bot = (inr (Some n), bot, tq) ->
  cachedCount (fst (poll c bot)) = Some n.
Proof. apply cached_after_fetch. Qed.

(** X21.  Once a count is cached the cache is never emptied again: a
    cycle replaces a cached count by another count, or keeps it. *)
Theorem X21_poll_keeps_a_count (c : Cycle) (bot : OnlineBot) :
  cachedCount bot <> None -> cachedCount (fst (poll c bot)) <> None.
Proof.
  intros Hsome.
  destruct (poll_state c bot) as (newCount & bot1 & pre & F & S).
  destruct (fetched_frame _ _ _ _ _ F) as (_ & _ & Hc & _).
  assert (Hnew : changed newCount (cachedCount bot) = true ->
                 newCount <> None)
    by (destruct newCount; [discriminate | intros Bad; discriminate Bad]).
  destruct S as [[_ ->] | [Hch [-> | ->]]]; cbn; auto.
  rewrite Hc; exact Hsome.
Qed.

(** X22.  The same count twice.  When two cycles in a row fetch the same
    count, the second one issues no edit, whatever became of the first
    one's edit. *)
Theorem X22_poll_same_count_twice
  (c1 c2 : Cycle) (bot : OnlineBot) n tq1 tq2 :
  fetchTotalMemberCount (totalPage c1) bot = (inr (Some n), bot, tq1) ->
  fetchTotalMemberCount (totalPage c2) (fst (poll c1 bot))
  = (inr (Some n), fst (poll c1 bot), tq2) ->
  filter isEdit (snd (poll c2 (fst (poll c1 bot)))) = []
  /\ cachedCount (fst (poll c2 (fst (poll c1 bot)))) = Some n.
Proof.
  intros E1 E2.
  pose proof (cached_after_fetch c1 bot n tq1 E1) as Hc.
  split; [|exact (cached_after_fetch c2 _ n tq2 E2)].
  destruct (fetchTotal_shape (totalPage c2)) as (r & t & Es & Q & V).
  rewrite Es in E2; injection E2 as -> ->.
  destruct (V n eq_refl) as (Hn & _).
  assert (Hun : changed (Some n) (cachedCount (fst (poll c1 bot))) = false).
  { rewrite Hc; unfold changed; rewrite Hn, (number_eqb_refl n Hn).
    reflexivity. }
  destruct (poll_unchanged c2 (fst (poll c1 bot)) (Some n) tq2
              (Es _) Q Hun) as (b & t & Eb & Qt & _).
  rewrite poll_run, Eb.
  destruct (running b); cbn [snd]; rewrite ?filter_app;
    rewrite (logLines_no_edit t Qt); reflexivity.
Qed.

Lemma buildMessage_undefined (ts : jsstring) (bot : OnlineBot) :
  worldsCount bot = None ->
  buildMessage ts bot = (inl (TypeError (ReadOfUndefined "map")), bot, []).
Proof.
  intros Hw; unfold buildMessage, bind, this; cbn; rewrite Hw; reflexivity.
Qed.

(** X12.  A cycle whose segment fetch failed while the count changed: the new
    count is cached, the segment cache is [undefined], rendering throws,
    no edit is issued, the error is logged and the loop stops. *)
Theorem X12_poll_failed_segments_changed_count
  (c : Cycle) (bot : OnlineBot) n tq tw :
  truthy (Config.worldsCount (config bot)) = true ->
  fetchWorldsMemberCount (worldsPage c) bot = (inr None, bot, tw) ->
  fetchTotalMemberCount (totalPage c) bot = (inr (Some n), bot, tq) ->
  cachedCount bot <> Some n ->
  messageRef bot <> None ->
  fst (poll c bot)
  = set_running false
      (set_cachedCount (Some n) (set_worldsCount None bot))
  /\ filter isEdit (snd (poll c bot)) = []
  /\ existsb isSetTimeout (snd (poll c bot)) = false
  /\ exists t0,
       snd (poll c bot)
       = t0 ++ [LogError (js "Error during polling: "
                            ++ TypeError_message (ReadOfUndefined "map"))].
Proof.
  intros Hon Ew Et Hne Href.
  pose proof (pollBody_no_timer c bot) as T.
  destruct (pollBody_outcome c bot) as (newCount & bot1 & pre & F & O).
  destruct (fetched_total _ _ _ _ _ F) as (t1 & E').
  rewrite Et in E'; injection E' as <- _.
  destruct (fetched_worlds _ _ _ _ _ F) as (w' & tw' & E' & Eb).
  rewrite Ew in E'; injection E' as <- _.
  rewrite Hon in Eb; subst bot1.
  pose proof (logLines_no_edit pre (fetched_log _ _ _ _ _ F)) as Q.
  assert (Hb : buildMessage (now c)
                 (set_cachedCount (Some n) (set_worldsCount None bot))
               = (inl (TypeError (ReadOfUndefined "map")),
                  set_cachedCount (Some n) (set_worldsCount None bot), []))
    by (apply buildMessage_undefined; reflexivity).
  destruct (fetched_valid _ _ _ _ _ F n eq_refl) as (Hn & _).
  rewrite poll_run.
  inversion O as [Hch Eo | Hch Hm Eo | m' e Hch Hm Hb' Eo
                 | m' p' e Hch Hm Hb' Hr' Eo | m' p' Hch Hm Hb' Hr' Eo];
    rewrite <- Eo in T; cbn [snd] in T.
  - exfalso; apply Hne; apply unchanged_cached; assumption.
  - contradiction.
  - rewrite Hb in Hb'; injection Hb' as <-.
    cbn [fst snd]; split; [reflexivity|].
    split; [rewrite filter_app, Q; reflexivity|].
    split; [rewrite existsb_app, T; reflexivity|].
    exists pre; reflexivity.
  - rewrite Hb in Hb'; discriminate Hb'.
  - rewrite Hb in Hb'; discriminate Hb'.
Qed.

End CycleFacts.

(* ================================================================== *)
(** ** More about the renderer *)

Section RendererFacts.
Context `{Host}.

Lemma getOwn_setProp (e : object) (k k0 : jsstring) (v : jsval) :
  getOwn (setProp e k v) k0
  = if jsstring_eqb k (js "__proto__") then getOwn e k0
    else if jsstring_eqb k k0 then Some v else getOwn e k0.
Proof.
  unfold setProp.
  destruct (jsstring_eqb k (js "__proto__")); [reflexivity|].
  destruct (jsstring_eqb k k0) eqn:E.
  - apply jsstring_eqb_eq in E; subst; apply getOwn_assign_same.
  - apply getOwn_assign_other.
    intros ->; rewrite jsstring_eqb_refl in E; discriminate.
Qed.

Lemma buildMessage_none (ts : jsstring) (bot : OnlineBot) ws :
  worldsCount bot = Some ws ->
  Config.embed (config bot) = None ->
  buildMessage ts bot
  = (inr {| Payload.embeds := [defaultEmbed bot ts (mapi worldField 0 ws)];
            Payload.content := js "" |}, bot, []).
Proof.
  intros Hw Ht; unfold buildMessage, bind, this; cbn.
  rewrite Hw, Ht; reflexivity.
Qed.

Lemma buildMessage_shadowed (ts : jsstring) (bot : OnlineBot) ws tpl :
  worldsCount bot = Some ws ->
  Config.embed (config bot) = Some tpl ->
  hasOwn tpl (js "hasOwnProperty") = true ->
  buildMessage ts bot
  = (inl (TypeError (NotAFunction "configEmbed.hasOwnProperty")), bot, []).
Proof.
  intros Hw Ht Hh; unfold buildMessage, bind, this; cbn.
  rewrite Hw, Ht; cbn; unfold applyConfigEmbed.
  destruct tpl as [|kv tpl]; [discriminate Hh|].
  rewrite Hh; reflexivity.
Qed.

(** The loop over the template cannot fail on an embed whose [fields] is
    an array, and leaves it an array. *)
Lemma applyKeys_total (tpl : object) :
  forall e g,
    getOwn e (js "fields") = Some (JArr g) ->
    exists e' g',
      (forall s, applyKeys e tpl s = (inr e', s, []))
      /\ getOwn e' (js "fields") = Some (JArr g').
Proof.
  induction tpl as [|[k v] tpl IH]; intros e g Hf.
  - exists e, g; split; [reflexivity | exact Hf].
  - destruct (jsstring_eqb k (js "fields")) eqn:Ek.
    + apply jsstring_eqb_eq in Ek; subst k.
      destruct (IH (setProp e (js "fields") (JArr (concat g v)))
                  (concat g v)) as (e' & g' & Hrun & Hf').
      { rewrite getOwn_setProp, fields_not_proto, jsstring_eqb_refl.
        reflexivity. }
      exists e', g'; split; [|exact Hf'].
      intros s; cbn [applyKeys]; unfold bind, applyKey.
      rewrite jsstring_eqb_refl, Hf; cbn; rewrite Hrun; reflexivity.
    + destruct (IH (setProp e k v) g) as (e' & g' & Hrun & Hf').
      { rewrite getOwn_setProp, Ek, Hf.
        destruct (jsstring_eqb k (js "__proto__")); reflexivity. }
      exists e', g'; split; [|exact Hf'].
      intros s; cbn [applyKeys]; unfold bind, applyKey.
      rewrite Ek; cbn; rewrite Hrun; reflexivity.
Qed.

(** X14.  When rendering fails.  [buildMessage] returns a payload exactly when
    the segment cache is defined and the config template has no property
    named [hasOwnProperty]; otherwise it throws. *)
Theorem X14_buildMessage_returns_iff (ts : jsstring) (bot : OnlineBot) :
  (exists p, buildMessage ts bot = (inr p, bot, []))
  <-> worldsCount bot <> None
      /\ match Config.embed (config bot) with
         | Some tpl => hasOwn tpl (js "hasOwnProperty") = false
         | None => True
         end.
Proof.
  split.
  - intros [p E].
    destruct (worldsCount bot) as [ws|] eqn:Hw;
      [|rewrite (buildMessage_undefined ts bot Hw) in E; discriminate E].
    split; [discriminate|].
    destruct (Config.embed (config bot)) as [tpl|] eqn:Ht; [|exact I].
    destruct (hasOwn tpl (js "hasOwnProperty")) eqn:Hh; [|reflexivity].
    rewrite (buildMessage_shadowed ts bot ws tpl Hw Ht Hh) in E.
    discriminate E.
  - intros [Hw Ht].
    destruct (worldsCount bot) as [ws|] eqn:Ew; [|contradiction].
    destruct (Config.embed (config bot)) as [tpl|] eqn:Et.
    + destruct (applyKeys_total tpl
                  (defaultEmbed bot ts (mapi worldField 0 ws))
                  (mapi worldField 0 ws) eq_refl) as (e' & g' & Hrun & _).
      exists {| Payload.embeds := [e']; Payload.content := js "" |}.
      unfold buildMessage, bind, this; cbn.
      rewrite Ew, Et; cbn; unfold applyConfigEmbed.
      destruct tpl as [|kv tpl].
      * specialize (Hrun bot); cbn in Hrun; injection Hrun as <-.
        reflexivity.
      * rewrite Ht, Hrun; reflexivity.
    + eexists; apply (buildMessage_none ts bot ws Ew Et).
Qed.

(** What a rendered embed has under the keys the template leaves alone. *)
Lemma buildMessage_lookup (ts : jsstring) (bot : OnlineBot) p :
  buildMessage ts bot = (inr p, bot, []) ->
  templateIsObject bot ->
  exists embed ws,
    p = {| Payload.embeds := [embed]; Payload.content := js "" |}
    /\ worldsCount bot = Some ws
    /\ forall k, templateLacks bot k ->
         getOwn embed k
         = getOwn (defaultEmbed bot ts (mapi worldField 0 ws)) k.
Proof.
  intros E Hobj.
  destruct (worldsCount bot) as [ws|] eqn:Hw;
    [|rewrite (buildMessage_undefined ts bot Hw) in E; discriminate E].
  unfold templateIsObject, templateLacks in *.
  destruct (Config.embed (config bot)) as [tpl|] eqn:Ht.
  - destruct (hasOwn tpl (js "hasOwnProperty")) eqn:Hh;
      [rewrite (buildMessage_shadowed ts bot ws tpl Hw Ht Hh) in E;
       discriminate E|].
    destruct (buildMessage_merged ts bot ws tpl Hw Ht Hobj Hh)
      as (embed & Hrun & Hget).
    rewrite Hrun in E; injection E as <-.
    exists embed, ws; repeat split.
    intros k Hk; rewrite Hget; unfold mergedAt; rewrite Hk.
    destruct (jsstring_eqb k _); reflexivity.
  - rewrite (buildMessage_none ts bot ws Hw Ht) in E; injection E as <-.
    eexists _, ws; repeat split.
Qed.

Lemma mapi_length {A B} (f : A -> Z -> B) (l : list A) :
  forall i, List.length (mapi f i l) = List.length l.
Proof. induction l as [|x l IH]; intros i; simpl; auto. Qed.

Lemma mapi_nth {A B} (f : A -> Z -> B) (l : list A) :
  forall i k x,
    nth_error l k = Some x ->
    nth_error (mapi f i l) k = Some (f x (i + Z.of_nat k)).
Proof.
  induction l as [|y l IH]; intros i k x Hk; [destruct k; discriminate|].
  destruct k as [|k]; simpl in *.
  - injection Hk as ->; rewrite Z.add_0_r; reflexivity.
  - rewrite (IH (i + 1) k x Hk); f_equal; f_equal; lia.
Qed.

(** X15.  The generated fields.  Where the template has no [fields], a rendered
    embed has one field per cached segment count, in order: the field of
    the count at index [i] is named [World i+1], shows the count in bold
    and is inline. *)
Theorem X15_buildMessage_segment_fields (ts : jsstring) (bot : OnlineBot) p :
  buildMessage ts bot = (inr p, bot, []) ->
  templateIsObject bot ->
  templateLacks bot (js "fields") ->
  exists embed fields ws,
    Payload.embeds p = [embed]
    /\ worldsCount bot = Some ws
    /\ getOwn embed (js "fields") = Some (JArr fields)
    /\ List.length fields = List.length ws
    /\ forall i c,
         nth_error ws i = Some c ->
         nth_error fields i
         = Some (JObj
             [ (js "name",
                JStr (js "World " ++ Number_toString (Fin (Z.of_nat i + 1))));
               (js "value", JStr (js "**" ++ Number_toString c ++ js "**"));
               (js "inline", JBool true) ]).
Proof.
  intros E Hobj Hlacks.
  destruct (buildMessage_lookup ts bot p E Hobj)
    as (embed & ws & -> & Hw & Hget).
  exists embed, (mapi worldField 0 ws), ws.
  split; [reflexivity|]; split; [exact Hw|].
  split; [rewrite (Hget _ Hlacks); reflexivity|].
  split; [apply mapi_length|].
  intros i c Hi; rewrite (mapi_nth worldField ws 0 i c Hi); reflexivity.
Qed.

(** X16.  A template whose [fields] is not an array: [concat] appends the value
    itself, as one more field after the generated ones. *)
Theorem X16_buildMessage_fields_not_an_array
  (ts : jsstring) (bot : OnlineBot) ws tpl v :
  worldsCount bot = Some ws ->
  Config.embed (config bot) = Some tpl ->
  keysDistinct tpl = true ->
  hasOwn tpl (js "hasOwnProperty") = false ->
  getOwn tpl (js "fields") = Some v ->
  (forall l, v <> JArr l) ->
  exists embed,
    buildMessage ts bot
    = (inr {| Payload.embeds := [embed]; Payload.content := js "" |},
       bot, [])
    /\ getOwn embed (js "fields")
       = Some (JArr (mapi worldField 0 ws ++ [v])).
Proof.
  intros Hw Ht Hd Hh Hv Hna.
  destruct (buildMessage_merged ts bot ws tpl Hw Ht Hd Hh)
    as (embed & Hrun & Hget).
  exists embed; split; [exact Hrun|].
  rewrite Hget; unfold mergedAt.
  rewrite fields_not_proto, Hv, jsstring_eqb_refl.
  destruct v; try reflexivity.
  exfalso; eapply Hna; reflexivity.
Qed.

Lemma fields_not_timestamp :
  jsstring_eqb (js "fields") (js "timestamp") = false.
Proof. reflexivity. Qed.

Lemma setProp_sameButTimestamp (e1 e2 : object) k v :
  sameButTimestamp e1 e2 ->
  sameButTimestamp (setProp e1 k v) (setProp e2 k v).
Proof.
  intros Hs k0 Hk0; rewrite !getOwn_setProp, (Hs k0 Hk0); reflexivity.
Qed.

Lemma applyKeys_sameButTimestamp (tpl : object) :
  forall e1 e2 e1' s,
    sameButTimestamp e1 e2 ->
    applyKeys e1 tpl s = (inr e1', s, []) ->
    exists e2',
      applyKeys e2 tpl s = (inr e2', s, [])
      /\ sameButTimestamp e1' e2'.
Proof.
  induction tpl as [|[k v] tpl IH]; intros e1 e2 e1' s Hs E.
  - cbn in E; injection E as <-; exists e2; split; [reflexivity | exact Hs].
  - cbn [applyKeys] in E |- *; unfold bind, applyKey in E |- *.
    destruct (jsstring_eqb k (js "fields")) eqn:Ek.
    + apply jsstring_eqb_eq in Ek; subst k.
      assert (Hf : getOwn e2 (js "fields") = getOwn e1 (js "fields")).
      { symmetry; apply Hs; intros Bad.
        apply jsstring_eqb_eq in Bad.
        rewrite fields_not_timestamp in Bad; discriminate. }
      rewrite Hf.
      destruct (getOwn e1 (js "fields")) as [[| | | | |g|]|];
        try (cbn in E; discriminate E).
      cbn in E |- *.
      destruct (applyKeys_shape tpl
                  (setProp e1 (js "fields") (JArr (concat g v)))) as [r Hr].
      rewrite Hr in E; destruct r as [err|e']; [discriminate E|].
      injection E as <-.
      destruct (IH _ (setProp e2 (js "fields") (JArr (concat g v))) e' s
                  (setProp_sameButTimestamp _ _ _ _ Hs) (Hr s))
        as (e2' & Hrun & Hs').
      exists e2'; rewrite Hrun; split; [reflexivity | exact Hs'].
    + cbn in E |- *.
      destruct (applyKeys_shape tpl (setProp e1 k v)) as [r Hr].
      rewrite Hr in E; destruct r as [err|e']; [discriminate E|].
      injection E as <-.
      destruct (IH _ (setProp e2 k v) e' s
                  (setProp_sameButTimestamp _ _ _ _ Hs) (Hr s))
        as (e2' & Hrun & Hs').
      exists e2'; rewrite Hrun; split; [reflexivity | exact Hs'].
Qed.

Lemma defaultEmbed_sameButTimestamp (bot : OnlineBot) ts1 ts2 fields :
  sameButTimestamp (defaultEmbed bot ts1 fields)
                   (defaultEmbed bot ts2 fields).
Proof.
  intros k Hk; unfold defaultEmbed; cbn [getOwn].
  repeat match goal with
  | |- context [jsstring_eqb ?a k] =>
      destruct (jsstring_eqb a k) eqn:?; try reflexivity
  end.
  exfalso; apply Hk; symmetry; apply jsstring_eqb_eq; assumption.
Qed.

(** X17.  The render time shows in the [timestamp] of the embed and nowhere
    else: rendering the same bot at another time succeeds as well, and
    the two embeds agree under every other key. *)
Theorem X17_buildMessage_only_timestamp_varies
  (ts1 ts2 : jsstring) (bot : OnlineBot) p1 :
  buildMessage ts1 bot = (inr p1, bot, []) ->
  exists e1 e2,
    p1 = {| Payload.embeds := [e1]; Payload.content := js "" |}
    /\ buildMessage ts2 bot
       = (inr {| Payload.embeds := [e2]; Payload.content := js "" |},
          bot, [])
    /\ forall k, k <> js "timestamp" -> getOwn e1 k = getOwn e2 k.
Proof.
  intros E.
  destruct (worldsCount bot) as [ws|] eqn:Hw;
    [|rewrite (buildMessage_undefined ts1 bot Hw) in E; discriminate E].
  pose proof (defaultEmbed_sameButTimestamp bot ts1 ts2
                (mapi worldField 0 ws)) as Hd.
  destruct (Config.embed (config bot)) as [tpl|] eqn:Ht.
  - revert E; unfold buildMessage, bind, this; cbn.
    rewrite Hw, Ht; cbn; unfold applyConfigEmbed.
    destruct tpl as [|kv tpl].
    + cbn; intros [= <-]; do 2 eexists; repeat split; exact Hd.
    + destruct (hasOwn _ _); [cbn; discriminate|].
      destruct (applyKeys_shape (kv :: tpl)
                  (defaultEmbed bot ts1 (mapi worldField 0 ws))) as [r Hr].
      rewrite Hr; destruct r as [err|e1]; [discriminate|].
      intros [= <-].
      destruct (applyKeys_sameButTimestamp (kv :: tpl) _ _ e1 bot Hd (Hr bot))
        as (e2 & Hrun & Hs).
      exists e1, e2; rewrite Hrun; repeat split; exact Hs.
  - rewrite (buildMessage_none ts1 bot ws Hw Ht) in E; injection E as <-.
    rewrite (buildMessage_none ts2 bot ws Hw Ht).
    do 2 eexists; repeat split; exact Hd.
Qed.

End RendererFacts.

(* ================================================================== *)
(** ** The cycle and the renderer together *)

Section EditedMessage.
Context `{Host}.

Lemma logLines_no_Edit (t : list event) m p :
  forallb isLogLine t = true -> ~ In (Edit m p) t.
Proof.
  intros Q Hin.
  pose proof (logLines_not_delivery t _ Q Hin) as Bad; discriminate Bad.
Qed.

(** An edit issued by a cycle was rendered from the bot as the cycle
    leaves it, with the fetched count already in the cache. *)
Lemma poll_edit_rendered (c : Cycle) (bot : OnlineBot) m p :
  In (Edit m p) (snd (poll c bot)) ->
  messageRef bot = Some m
  /\ exists bot2,
       buildMessage (now c) bot2 = (inr p, bot2, [])
       /\ config bot2 = config bot
       /\ worldsCount bot2 = worldsCount (fst (poll c bot))
       /\ forall n tq,
            fetchTotalMemberCount (totalPage c) bot
            = (inr (Some n), bot, tq) ->
            cachedCount bot2 = Some n.
Proof.
  intros Hin.
  destruct (pollBody_outcome c bot) as (newCount & bot1 & pre & F & O).
  pose proof (logLines_no_Edit pre m p (fetched_log _ _ _ _ _ F)) as Q.
  destruct (fetched_frame _ _ _ _ _ F) as (_ & Hc & _ & _).
  destruct (fetched_total _ _ _ _ _ F) as (t1 & Et).
  assert (Hn : forall n tq,
            fetchTotalMemberCount (totalPage c) bot
            = (inr (Some n), bot, tq) ->
            cachedCount (set_cachedCount newCount bot1) = Some n).
  { intros n tq E; rewrite Et in E; injection E as -> _; reflexivity. }
  rewrite poll_run in Hin |- *.
  inversion O as [Hch Eo | Hch Hm Eo | m' e Hch Hm Hb Eo
                 | m' p' e Hch Hm Hb Hr Eo | m' p' Hch Hm Hb Hr Eo];
    rewrite <- Eo in Hin; try (destruct (running _)); cbn [fst snd] in *;
    repeat (apply in_app_or in Hin; destruct Hin as [Hin|Hin]);
    try contradiction;
    repeat (destruct Hin as [Hin|Hin]; try discriminate Hin);
    try contradiction;
    injection Hin as <- <-; (split; [exact Hm|]); eexists; split; eauto.
Qed.

(** X13.  The edited message shows what was just fetched: with a template that
    leaves [description] alone, the embed of an edit says the count
    fetched in this very cycle, and with one that leaves [fields] alone
    its fields are those of the segment counts the cycle ends with. *)
Theorem X13_poll_edit_shows_fetched_count
  (c : Cycle) (bot : OnlineBot) n tq m p :
  fetchTotalMemberCount (totalPage c) bot = (inr (Some n), bot, tq) ->
  In (Edit m p) (snd (poll c bot)) ->
  templateIsObject bot ->
  exists embed ws,
    Payload.embeds p = [embed]
    /\ worldsCount (fst (poll c bot)) = Some ws
    /\ (templateLacks bot (js "description") ->
        getOwn embed (js "description")
        = Some (JStr (js "Current member count: "
                        ++ js "**" ++ Number_toString n ++ js "**")))
    /\ (templateLacks bot (js "fields") ->
        getOwn embed (js "fields") = Some (JArr (mapi worldField 0 ws))).
Proof.
  intros Et Hin Hobj.
  destruct (poll_edit_rendered c bot m p Hin)
    as (_ & bot2 & Hb & Hc & Hw & Hcc).
  specialize (Hcc n tq Et).
  assert (Hobj2 : templateIsObject bot2)
    by (unfold templateIsObject in *; rewrite Hc; exact Hobj).
  destruct (buildMessage_lookup (now c) bot2 p Hb Hobj2)
    as (embed & ws & -> & Hws & Hget).
  exists embed, ws; split; [reflexivity|].
  split; [rewrite <- Hw; exact Hws|].
  split; intros Hl.
  - rewrite Hget by (unfold templateLacks in *; rewrite Hc; exact Hl).
    unfold defaultEmbed, countText; rewrite Hcc; reflexivity.
  - rewrite Hget by (unfold templateLacks in *; rewrite Hc; exact Hl).
    reflexivity.
Qed.

End EditedMessage.

(* ================================================================== *)
(** ** More about the count extractor *)

Section ExtractorFacts.
Context `{Host}.

Lemma worldsLoop_broken (before after : list Node) (bad : Node) :
  Forall (fun i => nodeCount i <> None) before ->
  nodeText bad = None ->
  forall acc s,
    worldsLoop (before ++ bad :: after) acc s
    = (inl (TypeError (match firstChild bad with
                       | None => ReadOfNull "data"
                       | Some _ => ReadOfUndefined "trim"
                       end)), s, []).
Proof.
  intros Hb Ht; induction Hb as [|i l Hi Hl IH]; intros acc s.
  - unfold nodeText in Ht; simpl.
    destruct (firstChild bad) as [ch|]; [|reflexivity].
    rewrite Ht; reflexivity.
  - unfold nodeCount, nodeText in Hi; simpl.
    destruct (firstChild i) as [ch|]; [|contradiction].
    destruct (data ch) as [t|]; [|contradiction].
    destruct (Number_isNaN (parseInt (trim t))); [contradiction|].
    apply IH.
Qed.

(** X18.  An element with no text to read.  At the first element whose first
    child is missing, or is not a text node, the segment extraction gets a
    TypeError from the runtime; it logs it and returns [undefined], and
    the counts read before it are dropped. *)
Theorem X18_fetchWorlds_element_without_text
  (element : Element) (bot : OnlineBot) before bad after :
  nodes element = before ++ bad :: after ->
  Forall (fun i => nodeCount i <> None) before ->
  nodeText bad = None ->
  fetchWorldsMemberCount (inr element) bot
  = (inr None, bot,
     [LogError (js "Error fetching member count: " ++
        TypeError_message (match firstChild bad with
                           | None => ReadOfNull "data"
                           | Some _ => ReadOfUndefined "trim"
                           end))]).
Proof.
  intros E Hb Ht.
  pose proof (worldsLoop_broken before after bad Hb Ht [] bot) as Hrun.
  rewrite <- E in Hrun.
  rewrite (fetchWorlds_of_loop element bot _ Hrun); reflexivity.
Qed.

End ExtractorFacts.

Section Hexadecimal.

Lemma isDigit_16 (c : N) : isDigit 16 c = isHexDigit c.
Proof.
  unfold isDigit, digitValue, isHexDigit.
  repeat (by_cases; simpl); try reflexivity; lia.
Qed.

Lemma digitValue_hex (c : N) :
  isHexDigit c = true -> digitValue 16 c = Some (hexDigitValue c).
Proof.
  unfold isHexDigit, digitValue, hexDigitValue.
  repeat (by_cases; simpl); try reflexivity; try discriminate;
    intros; try lia; try discriminate.
Qed.

Lemma isDigit_16_ext : forall l,
  forallb (isDigit 16) l = forallb isHexDigit l.
Proof.
  induction l as [|x l IH]; simpl; auto.
  rewrite isDigit_16, IH; reflexivity.
Qed.

Lemma mathInt_hex_acc (hs : jsstring) (acc : Z) :
  forallb isHexDigit hs = true ->
  fold_left
    (fun a c => a * 16 + match digitValue 16 c with
                         | Some d => d
                         | None => 0
                         end) hs acc
  = acc * 16 ^ Z.of_nat (List.length hs) + hexValue hs.
Proof.
  revert acc; induction hs as [|c hs IH]; intros acc Hd.
  - simpl; lia.
  - simpl in Hd; apply andb_true_iff in Hd; destruct Hd as [Hc Hd].
    cbn [fold_left]; rewrite IH by exact Hd.
    rewrite (digitValue_hex c Hc).
    cbn [hexValue List.length].
    rewrite Nat2Z.inj_succ, Z.pow_succ_r by lia.
    ring.
Qed.

(** X19.  A text that starts with [0x] or [0X].  [parseInt] is called without a
    radix, so the aggregate extraction reads such a text as a hexadecimal
    numeral: it returns the value of the hexadecimal digits that follow
    the prefix, up to the first character that is not one. *)
Theorem X19_fetchTotal_hexadecimal
  (element : Element) (bot : OnlineBot) (x : N) (hs rest : jsstring) :
  trim (text element) = 48%N :: x :: hs ++ rest ->
  x = 120%N \/ x = 88%N ->
  hs <> [] ->
  forallb isHexDigit hs = true ->
  match rest with [] => True | c :: _ => isHexDigit c = false end ->
  fetchTotalMemberCount (inr element) bot
  = (inr (Some (toNumber (hexValue hs))), bot, []).
Proof.
  intros Et Hx Hne Hh Hr.
  assert (P : parseInt (trim (text element)) = toNumber (hexValue hs)).
  { unfold parseInt; rewrite trimStart_trim, Et.
    unfold readSign; change (48 =? 45)%N with false.
    change (48 =? 43)%N with false; cbv iota.
    assert (Hp : stripPrefix (48%N :: x :: hs ++ rest) = (16, hs ++ rest))
      by (destruct Hx as [-> | ->]; reflexivity).
    rewrite Hp, takeWhile_app_stop.
    - destruct hs as [|h hs]; [contradiction|].
      unfold mathInt; rewrite mathInt_hex_acc by exact Hh.
      f_equal; lia.
    - rewrite isDigit_16_ext; exact Hh.
    - destruct rest as [|c r]; [exact I|]; rewrite isDigit_16; exact Hr. }
  rewrite fetchTotal_run, P.
  pose proof (toNumber_notNaN (hexValue hs)) as NN.
  destruct (toNumber (hexValue hs)); [contradiction| |]; reflexivity.
Qed.

End Hexadecimal.

(* ================================================================== *)
(** ** More about acquisition and the life of the process *)

Section AcquisitionFacts.
Context `{Host}.


(** X2.  The platform's refusals pass through.  An error of the channel
    lookup or of the listing leaves acquisition before anything is sent;
    an error of the send leaves it after the one attempt, without a retry
    and without the line about a new message. *)
Theorem X2_getOrSendMessage_platform_errors
  (a : Acquire) (bot : OnlineBot) (err : Error) :
  (channelReply a = inl err ->
   getOrSendMessage a bot = (inl err, bot, []))
  /\ (forall channel,
        channelReply a = inr (Some channel) ->
        isTextBased channel = true ->
        listReply a = Some err ->
        getOrSendMessage a bot = (inl err, bot, []))
  /\ (forall channel payload,
        channelReply a = inr (Some channel) ->
        isTextBased channel = true ->
        listReply a = None ->
        filter (isBotMessage (user_id a)) (messages_fetch 10 channel) = [] ->
        buildMessage (today a) bot = (inr payload, bot, []) ->
        sendReply a = inl err ->
        getOrSendMessage a bot = (inl err, bot, [Send payload])).
Proof.
  rewrite getOrSendMessage_run; split; [|split].
  - intros ->; reflexivity.
  - intros channel -> -> ->; reflexivity.
  - intros channel payload -> -> -> -> -> ->; reflexivity.
Qed.

(** The head of the sorted list is the first of the newest ones. *)
Lemma sort_head_first (l : list Message.t) :
  forall m rest,
    sort newestFirst l = m :: rest ->
    exists before after,
      l = before ++ m :: after
      /\ (forall x, In x before ->
            Message.createdTimestamp x < Message.createdTimestamp m)
      /\ (forall x, In x after ->
            Message.createdTimestamp x <= Message.createdTimestamp m).
Proof.
  induction l as [|a l IH]; intros m rest E; [discriminate E|].
  change (sort newestFirst (a :: l))
    with (insert newestFirst a (sort newestFirst l)) in E.
  destruct (sort newestFirst l) as [|y r] eqn:Es.
  - assert (l = []) as ->.
    { destruct l as [|b l]; [reflexivity|].
      exfalso; exact (sort_nonempty newestFirst b l Es). }
    cbn in E; injection E as <- <-.
    exists [], []; repeat split; intros x [].
  - destruct (IH y r eq_refl) as (before & after & El & Hb & Ha).
    cbn [insert] in E; unfold newestFirst at 1 in E.
    destruct (Z.leb_spec (Message.createdTimestamp y
                          - Message.createdTimestamp a) 0) as [Le|Gt];
      injection E as <- <-.
    + exists [], l; split; [reflexivity|].
      split; [intros x []|].
      intros x Hx; rewrite El in Hx.
      apply in_app_or in Hx; destruct Hx as [Hx|[<-|Hx]].
      * specialize (Hb x Hx); lia.
      * lia.
      * specialize (Ha x Hx); lia.
    + exists (a :: before), after; split; [rewrite El; reflexivity|].
      split; [|exact Ha].
      intros x [<-|Hx]; [lia | exact (Hb x Hx)].
Qed.

(** X3.  Ties.  Among the bot's messages with an embed in the 10 most recent,
    acquisition returns the first one, in the order of the listing, that
    has the greatest timestamp: every eligible message listed before it is
    strictly older. *)
Theorem X3_getOrSendMessage_first_of_the_newest
  (a : Acquire) (bot : OnlineBot) (channel : Channel) message t :
  channelReply a = inr (Some channel) ->
  isTextBased channel = true ->
  listReply a = None ->
  filter (isBotMessage (user_id a)) (firstn 10 (history channel)) <> [] ->
  getOrSendMessage a bot = (inr message, bot, t) ->
  exists before after,
    filter (isBotMessage (user_id a)) (firstn 10 (history channel))
    = before ++ message :: after
    /\ (forall x, In x before ->
          Message.createdTimestamp x < Message.createdTimestamp message)
    /\ (forall x, In x after ->
          Message.createdTimestamp x <= Message.createdTimestamp message).
Proof.
  intros Hch Htext Hlist Hne.
  rewrite getOrSendMessage_run, Hch, Htext, Hlist; cbn [negb].
  change (messages_fetch 10 channel) with (firstn 10 (history channel)).
  destruct (sort newestFirst _) as [|m rest] eqn:Es.
  - exfalso; apply Hne.
    destruct (filter _ _) as [|b l]; [reflexivity|].
    exfalso; exact (sort_nonempty newestFirst b l Es).
  - intros [= <- _]; exact (sort_head_first _ m rest Es).
Qed.

Lemma getOrSendMessage_sends (a : Acquire) (bot : OnlineBot) :
  (List.length (filter isSend (snd (getOrSendMessage a bot))) <= 1)%nat
  /\ filter isEdit (snd (getOrSendMessage a bot)) = []
  /\ existsb isSetTimeout (snd (getOrSendMessage a bot)) = false.
Proof.
  rewrite getOrSendMessage_run.
  repeat match goal with
  | |- context [match ?x with _ => _ end] => destruct x
  end; cbn; auto.
Qed.

Lemma pollLoop_no_send (cycles : list Cycle) :
  forall bot, filter isSend (snd (pollLoop cycles bot)) = [].
Proof.
  induction cycles as [|c rest IH]; intros bot; [reflexivity|].
  cbn [pollLoop].
  pose proof (pollBody_outcome c bot) as (newCount & bot1 & pre & F & O).
  assert (Hs : filter isSend (snd (poll c bot)) = []).
  { pose proof (logLines_no_send pre (fetched_log _ _ _ _ _ F)) as Qs.
    rewrite poll_run.
    inversion O; try (destruct (running _)); cbn [snd];
      rewrite <- ?app_assoc, ?filter_app, Qs; reflexivity. }
  destruct (poll c bot) as [b1 t1]; cbn [snd] in Hs.
  destruct (existsb isSetTimeout t1); [|exact Hs].
  specialize (IH b1); destruct (pollLoop rest b1) as [b2 t2]; cbn [snd] in *.
  rewrite filter_app, Hs, IH; reflexivity.
Qed.

(** X6.  One message.  In the whole life of the process the bot sends at most
    one new message; everything after acquisition is an edit. *)
Theorem X6_lifetime_sends_at_most_one_message
  (cfg : Config.t) (a : Acquire) (cycles : list Cycle) :
  (List.length (filter isSend (snd (lifetime cfg a cycles))) <= 1)%nat.
Proof.
  unfold lifetime; rewrite onReady_run.
  pose proof (getOrSendMessage_sends a (run (constructor cfg)))
    as (Hs & _ & _).
  destruct (getOrSendMessage a (run (constructor cfg)))
    as [[[e|message] b] t]; cbn [snd] in *.
  - rewrite filter_app; exact Hs.
  - rewrite !filter_app, pollLoop_no_send, app_nil_r; exact Hs.
Qed.

(** X4.  Acquisition fails.  When [getOrSendMessage] throws, [onReady] rejects
    with it and polling never starts: no cycle runs and no timer is
    armed, whatever the pages would answer; the bot keeps [running] true
    and has no message reference. *)
Theorem X4_lifetime_without_acquisition
  (cfg : Config.t) (a : Acquire) (cycles : list Cycle)
  (err : Error) (t : list event) bot' :
  getOrSendMessage a (run (constructor cfg)) = (inl err, bot', t) ->
  fst (fst (onReady a cycles (run (constructor cfg)))) = inl err
  /\ lifetime cfg a cycles
     = (run (constructor cfg), greeting a (run (constructor cfg)) ++ t)
  /\ running (fst (lifetime cfg a cycles)) = true
  /\ messageRef (fst (lifetime cfg a cycles)) = None
  /\ filter isEdit (snd (lifetime cfg a cycles)) = []
  /\ existsb isSetTimeout (snd (lifetime cfg a cycles)) = false.
Proof.
  intros E.
  pose proof (getOrSendMessage_sends a (run (constructor cfg)))
    as (_ & He & Ht).
  unfold lifetime; rewrite onReady_run, E in *; cbn [fst snd] in *.
  repeat split.
  - rewrite filter_app; exact He.
  - rewrite existsb_app; exact Ht.
Qed.

Lemma pollLoop_edits_target (cycles : list Cycle) :
  forall bot m p,
    In (Edit m p) (snd (pollLoop cycles bot)) -> messageRef bot = Some m.
Proof.
  induction cycles as [|c rest IH]; intros bot m p Hin; [destruct Hin|].
  cbn [pollLoop] in Hin.
  pose proof (poll_edit_rendered c bot m p) as Hone.
  pose proof (poll_frame c bot) as [Hm _].
  destruct (poll c bot) as [b1 t1]; cbn [fst snd] in *.
  destruct (existsb isSetTimeout t1); [|exact (proj1 (Hone Hin))].
  specialize (IH b1 m p); destruct (pollLoop rest b1) as [b2 t2].
  cbn [snd] in *.
  apply in_app_or in Hin; destruct Hin as [Hin|Hin].
  - exact (proj1 (Hone Hin)).
  - rewrite <- Hm; exact (IH Hin).
Qed.

(** X5.  One tracked message.  Once acquired the message reference is never
    replaced: at any time it is the message acquisition returned, and
    every edit of the bot's life goes to that message. *)
Theorem X5_lifetime_one_tracked_message
  (cfg : Config.t) (a : Acquire) (cycles : list Cycle)
  (message : Message.t) (t : list event) bot' :
  getOrSendMessage a (run (constructor cfg)) = (inr message, bot', t) ->
  messageRef (fst (lifetime cfg a cycles)) = Some message
  /\ config (fst (lifetime cfg a cycles)) = cfg
  /\ forall m p, In (Edit m p) (snd (lifetime cfg a cycles)) -> m = message.
Proof.
  intros E.
  pose proof (getOrSendMessage_sends a (run (constructor cfg)))
    as (_ & He & _).
  unfold lifetime; rewrite onReady_run, E in *; cbn [fst snd] in *.
  pose proof (pollLoop_frame cycles
                (set_messageRef (Some message) (run (constructor cfg))))
    as [Hm Hc].
  split; [exact Hm|]. split; [exact Hc|].
  intros m p Hin.
  apply in_app_or in Hin; destruct Hin as [Hin|Hin];
    [destruct Hin as [Hin|[Hin|[]]]; discriminate Hin|].
  apply in_app_or in Hin; destruct Hin as [Hin|Hin].
  - exfalso.
    assert (Hf : In (Edit m p) (filter isEdit t))
      by (apply filter_In; split; [exact Hin | reflexivity]).
    rewrite He in Hf; exact Hf.
  - apply pollLoop_edits_target in Hin; cbn in Hin; congruence.
Qed.

(** X20.  The first message.  A message the bot sends is rendered from the
    freshly constructed bot: where the template leaves them alone, its
    description says that the count is being updated and it has no
    segment fields. *)
Theorem X20_lifetime_new_message_is_updating
  (cfg : Config.t) (a : Acquire) (cycles : list Cycle) (p : Payload.t) :
  In (Send p) (snd (lifetime cfg a cycles)) ->
  templateIsObject (run (constructor cfg)) ->
  exists embed,
    Payload.embeds p = [embed]
    /\ (templateLacks (run (constructor cfg)) (js "description") ->
        getOwn embed (js "description")
        = Some (JStr (js "Current member count: *Updating...*")))
    /\ (templateLacks (run (constructor cfg)) (js "fields") ->
        getOwn embed (js "fields") = Some (JArr [])).
Proof.
  intros Hin Hobj.
  assert (Hb : buildMessage (today a) (run (constructor cfg))
               = (inr p, run (constructor cfg), [])).
  { unfold lifetime in Hin; rewrite onReady_run in Hin.
    assert (Acq : In (Send p)
                    (snd (getOrSendMessage a (run (constructor cfg))))).
    { pose proof (pollLoop_no_send cycles) as Hno.
      destruct (getOrSendMessage a (run (constructor cfg)))
        as [[[e|message] b] t]; cbn [snd] in *.
      - apply in_app_or in Hin; destruct Hin as [Hin|Hin]; [|exact Hin].
        destruct Hin as [Hin|[Hin|[]]]; discriminate Hin.
      - apply in_app_or in Hin; destruct Hin as [Hin|Hin];
          [destruct Hin as [Hin|[Hin|[]]]; discriminate Hin|].
        apply in_app_or in Hin; destruct Hin as [Hin|Hin]; [exact Hin|].
        exfalso.
        assert (Hf : In (Send p)
                       (filter isSend
                          (snd (pollLoop cycles
                                  (set_messageRef (Some message)
                                     (run (constructor cfg)))))))
          by (apply filter_In; split; [exact Hin | reflexivity]).
        rewrite Hno in Hf; exact Hf. }
    clear Hin; rewrite getOrSendMessage_run in Acq.
    destruct (buildMessage_shape (today a) (run (constructor cfg)))
      as [r Er].
    rewrite Er in Acq |- *.
    repeat match type of Acq with
    | context [match ?x with _ => _ end] => destruct x
    end; cbn in Acq;
      repeat (destruct Acq as [Acq|Acq]; try discriminate Acq);
      try contradiction;
      injection Acq as <-; reflexivity. }
  destruct (buildMessage_lookup (today a) (run (constructor cfg)) p Hb Hobj)
    as (embed & ws & -> & Hws & Hget).
  injection Hws as <-.
  exists embed; split; [reflexivity|].
  split; intros Hl; rewrite (Hget _ Hl); reflexivity.
Qed.

End AcquisitionFacts.

(* ================================================================== *)
(** ** The further statements on the sample inputs *)


Lemma X2_witness :
  @getOrSendMessage node
    (acquireWith (inl missingAccess) None (inl missingAccess)) sampleBot
  = (inl missingAccess, sampleBot, [])
  /\ @getOrSendMessage node
       (acquireWith (inr (Some busyChannel)) (Some missingAccess)
          (inl missingAccess)) sampleBot
     = (inl missingAccess, sampleBot, [])
  /\ exists payload,
       @getOrSendMessage node
         (acquireWith (inr (Some quietChannel)) None (inl missingAccess))
         sampleBot
       = (inl missingAccess, sampleBot, [Send payload]).
Proof.
  split; [|split].
  - apply (proj1 (@X2_getOrSendMessage_platform_errors node _ sampleBot
                    missingAccess)); reflexivity.
  - apply (proj1 (proj2 (@X2_getOrSendMessage_platform_errors node _
                           sampleBot missingAccess)) busyChannel);
      reflexivity.
  - eexists.
    apply (proj2 (proj2 (@X2_getOrSendMessage_platform_errors node _
                           sampleBot missingAccess)) quietChannel);
      reflexivity.
Defined.

Lemma X3_witness :
  exists before after,
    filter (isBotMessage (js "bot")) (firstn 10 (history tiedChannel))
    = before ++ messageAt "5" "bot" [JNull] 900 :: after
    /\ (forall x, In x before -> Message.createdTimestamp x < 900)
    /\ (forall x, In x after -> Message.createdTimestamp x <= 900).
Proof.
  eapply (@X3_getOrSendMessage_first_of_the_newest node
            (acquireIn tiedChannel) sampleBot tiedChannel
            (messageAt "5" "bot" [JNull] 900)).
  - reflexivity.
  - reflexivity.
  - reflexivity.
  - discriminate.
  - reflexivity.
Defined.

Lemma X4_witness :
  @lifetime node sampleConfig
    (acquireWith (inr (Some voiceChannel)) None (inl missingAccess))
    [goodCycle "42" ["1"; "2"]%string]
  = (run (constructor sampleConfig),
     @greeting node
       (acquireWith (inr (Some voiceChannel)) None (inl missingAccess))
       (run (constructor sampleConfig)) ++ [])
  /\ existsb isSetTimeout
       (snd (@lifetime node sampleConfig
               (acquireWith (inr (Some voiceChannel)) None
                  (inl missingAccess))
               [goodCycle "42" ["1"; "2"]%string])) = false.
Proof.
  edestruct (@X4_lifetime_without_acquisition node sampleConfig
               (acquireWith (inr (Some voiceChannel)) None
                  (inl missingAccess))
               [goodCycle "42" ["1"; "2"]%string])
    as (_ & L & _ & _ & _ & T); [reflexivity|].
  split; [exact L | exact T].
Defined.

Lemma X5_witness :
  messageRef
    (fst (@lifetime node sampleConfig (acquireIn busyChannel)
            [goodCycle "42" ["1"; "2"]%string;
             goodCycle "43" ["1"; "2"]%string]))
  = Some (messageAt "9" "bot" [JNull] 900)
  /\ forall m p,
       In (Edit m p)
          (snd (@lifetime node sampleConfig (acquireIn busyChannel)
                  [goodCycle "42" ["1"; "2"]%string;
                   goodCycle "43" ["1"; "2"]%string])) ->
       m = messageAt "9" "bot" [JNull] 900.
Proof.
  edestruct (@X5_lifetime_one_tracked_message node sampleConfig
               (acquireIn busyChannel)
               [goodCycle "42" ["1"; "2"]%string;
                goodCycle "43" ["1"; "2"]%string])
    as (R & _ & E); [reflexivity|].
  split; [exact R | exact E].
Defined.

Lemma X9_witness :
  @poll node (goodCycle "42" ["1"; "2"]%string) plainBot
  = @poll node (goodCycle "42" ["x"]%string) plainBot
  /\ worldsCount (fst (@poll node (goodCycle "42" ["1"; "2"]%string) plainBot))
     = Some [Fin 3; Fin 4].
Proof.
  apply (@X9_poll_segments_disabled node); reflexivity.
Defined.

Lemma X10_witness :
  worldsCount (fst (@poll node (goodCycle "42" ["5"; "6"]%string) cachedBot))
  = Some [Fin 5; Fin 6].
Proof.
  eapply (@X10_poll_segments_refreshed node); reflexivity.
Defined.

Lemma X11_witness :
  cachedCount (fst (@poll node rejectedCycle sampleBot)) = Some (Fin 43).
Proof.
  eapply (@X11_poll_caches_fetched_count node); reflexivity.
Defined.

Lemma X12_witness :
  fst (@poll node (goodCycle "17" ["7"; "x"]%string) cachedBot)
  = set_running false
      (set_cachedCount (Some (Fin 17)) (set_worldsCount None cachedBot))
  /\ filter isEdit
       (snd (@poll node (goodCycle "17" ["7"; "x"]%string) cachedBot)) = [].
Proof.
  edestruct (@X12_poll_failed_segments_changed_count node
               (goodCycle "17" ["7"; "x"]%string) cachedBot (Fin 17))
    as (S & E & _);
    [reflexivity | reflexivity | reflexivity | discriminate | discriminate |].
  split; [exact S | exact E].
Defined.

Lemma X13_witness :
  exists m p embed,
    In (Edit m p) (snd (@poll node (goodCycle "17" []) plainBot))
    /\ Payload.embeds p = [embed]
    /\ getOwn embed (js "description")
       = Some (JStr (js "Current member count: **17**")).
Proof.
  assert (Edited : exists m p,
            In (Edit m p) (snd (@poll node (goodCycle "17" []) plainBot))).
  { do 2 eexists; cbv; repeat (first [left; reflexivity | right]). }
  destruct Edited as (m & p & Hin).
  edestruct (@X13_poll_edit_shows_fetched_count node (goodCycle "17" [])
               plainBot (Fin 17))
    as (embed & ws & He & _ & Hd & _); [reflexivity | exact Hin | exact I |].
  exists m, p, embed; split; [exact Hin|]. split; [exact He|].
  exact (Hd I).
Defined.

Lemma X15_witness :
  exists embed fields,
    fst (fst (@buildMessage node (js "2024-01-01T00:00:00.000Z") plainBot))
    = inr {| Payload.embeds := [embed]; Payload.content := js "" |}
    /\ getOwn embed (js "fields") = Some (JArr fields)
    /\ List.length fields = 2%nat
    /\ nth_error fields 1
       = Some (JObj [ (js "name", JStr (js "World 2"));
                      (js "value", JStr (js "**4**"));
                      (js "inline", JBool true) ]).
Proof.
  edestruct (@X15_buildMessage_segment_fields node
               (js "2024-01-01T00:00:00.000Z") plainBot)
    as (embed & fields & ws & He & Hw & Hf & Hl & Hn);
    [reflexivity | exact I | exact I |].
  injection Hw as <-.
  exists embed, fields; split; [|split; [exact Hf | split; [exact Hl|]]].
  - cbn in He; injection He as <-; reflexivity.
  - exact (Hn 1%nat (Fin 4) eq_refl).
Defined.

Lemma X16_witness :
  exists embed,
    @buildMessage node (js "2024-01-01T00:00:00.000Z") oddBot
    = (inr {| Payload.embeds := [embed]; Payload.content := js "" |},
       oddBot, [])
    /\ getOwn embed (js "fields")
       = Some (JArr (mapi (@worldField node) 0 [Fin 3]
                       ++ [JStr (js "note")])).
Proof.
  apply (@X16_buildMessage_fields_not_an_array node
           (js "2024-01-01T00:00:00.000Z") oddBot [Fin 3]
           [(js "fields", JStr (js "note"))] (JStr (js "note")));
    try reflexivity.
  intros l; discriminate.
Defined.

Lemma X17_witness :
  exists e1 e2,
    @buildMessage node (js "2024-01-01T00:00:00.000Z") cachedBot
    = (inr {| Payload.embeds := [e1]; Payload.content := js "" |},
       cachedBot, [])
    /\ @buildMessage node (js "2024-01-01T00:00:30.000Z") cachedBot
       = (inr {| Payload.embeds := [e2]; Payload.content := js "" |},
          cachedBot, [])
    /\ getOwn e1 (js "description") = getOwn e2 (js "description").
Proof.
  edestruct (@X17_buildMessage_only_timestamp_varies node
               (js "2024-01-01T00:00:00.000Z")
               (js "2024-01-01T00:00:30.000Z") cachedBot)
    as (e1 & e2 & E1 & E2 & Same); [reflexivity|].
  exists e1, e2; split; [rewrite <- E1; reflexivity|].
  split; [exact E2|].
  apply Same; discriminate.
Defined.

Lemma X18_witness :
  @fetchWorldsMemberCount node (inr gappedList) sampleBot
  = (inr None, sampleBot,
     [LogError (js "Error fetching member count: " ++
        node_TypeError_message (ReadOfNull "data"))]).
Proof.
  apply (@X18_fetchWorlds_element_without_text node gappedList sampleBot
           [textNode "7"] {| firstChild := None |} [textNode "9"]);
    [reflexivity | repeat constructor; discriminate | reflexivity].
Defined.

Lemma X19_witness :
  fetchTotalMemberCount (inr (page " 0x1A " [])) sampleBot
  = (inr (Some (Fin 26)), sampleBot, []).
Proof.
  apply (X19_fetchTotal_hexadecimal (page " 0x1A " []) sampleBot
           120%N (js "1A") []);
    [reflexivity | left; reflexivity | discriminate | reflexivity | exact I].
Defined.

Lemma X20_witness :
  exists p embed,
    In (Send p)
       (snd (@lifetime node plainConfig (acquireIn quietChannel)
               [goodCycle "42" []]))
    /\ Payload.embeds p = [embed]
    /\ getOwn embed (js "description")
       = Some (JStr (js "Current member count: *Updating...*"))
    /\ getOwn embed (js "fields") = Some (JArr []).
Proof.
  assert (Sent : exists p,
            In (Send p)
               (snd (@lifetime node plainConfig (acquireIn quietChannel)
                       [goodCycle "42" []]))).
  { eexists; cbv; right; right; left; reflexivity. }
  destruct Sent as [p Hin].
  destruct (@X20_lifetime_new_message_is_updating node plainConfig
              (acquireIn quietChannel) [goodCycle "42" []] p Hin I)
    as (embed & He & Hd & Hf).
  exists p, embed; split; [exact Hin|]. split; [exact He|].
  split; [exact (Hd I) | exact (Hf I)].
Defined.

Lemma X21_witness :
  cachedCount (fst (@poll node failedFetchCycle cachedBot)) <> None.
Proof.
  apply (@X21_poll_keeps_a_count node); discriminate.
Defined.

Lemma X22_witness :
  filter isEdit
    (snd (@poll node (goodCycle "43" ["1"; "2"]%string)
            (fst (@poll node rejectedCycle sampleBot)))) = []
  /\ cachedCount
       (fst (@poll node (goodCycle "43" ["1"; "2"]%string)
               (fst (@poll node rejectedCycle sampleBot))))
     = Some (Fin 43).
Proof.
  eapply (@X22_poll_same_count_twice node); reflexivity.
Defined.
